(** * msh/lib/progmgr: process-tree sampling and api2 telemetry

    A shallow embedding of [lib/progmgr/utils.go]:

    - [treeProc]         the recursive walk over the process tree,
    - [getMshTreeStats]  the cpu/mem sampler built on that walk,
    - [buildApi2Req]     the assembly of the api2 request,
    - [sendApi2Req]      the http exchange and its deferred [ReqSent] publish,
    - [readApi2Res]      the reading and decoding of the api2 response.

    and, in module [Config], of [lib/config/config-utils.go]
    ([InWhitelist], [loadIcon], [loadIpPorts], [getVersionInfo],
    [assignMshID]).

    Calls that leave the package (gopsutil, net/http, encoding/json, time,
    runtime, errco) are not executed: what they answer is an input of the
    model, and what they do to the outside is recorded in a trace. The
    width of [int] is an input too: it is that of the target. *)

From Stdlib Require Import ZArith List String Ascii Bool Lia.
From Stdlib Require Import Floats.
Import ListNotations.

Local Open Scope string_scope.
Local Open Scope list_scope.
Local Open Scope Z_scope.

(* ================================================================== *)
(** ** Go values *)

Module Go.

(** A call that returns [(T, error)]: either the value, or the text
    [err.Error()] of a non-nil error. *)
Inductive result (T : Type) : Type :=
| Ok (v : T)
| Err (msg : string).
Arguments Ok {T} v.
Arguments Err {T} msg.

(** How a call ends: it returns, a run-time panic unwinds it, or the
    goroutine is parked on a channel operation that nobody completes. *)
Inductive outcome (T : Type) : Type :=
| Returned (v : T)
| Panicked (msg : string)
| Blocked.
Arguments Returned {T} v.
Arguments Panicked {T} msg.
Arguments Blocked {T}.

(** [float64]: IEEE 754 binary64. *)
Definition float64 : Set := PrimFloat.float.

(** [int] has the width of the target, [bits]: 32 on the 32-bit targets
    (386, arm), 64 on the others. Its least and greatest values. *)
Definition int_min (bits : Z) : Z := - 2 ^ (bits - 1).
Definition int_max (bits : Z) : Z := 2 ^ (bits - 1) - 1.

(** Conversion between integer types keeps the low bits: [int(u)] for a
    [uint64] keeps the low [bits] bits, [int32(i)] for an [int] the low
    32. *)
Definition wrap_int (bits : Z) (z : Z) : Z :=
  (z + 2 ^ (bits - 1)) mod 2 ^ bits - 2 ^ (bits - 1).
Definition wrap_int32 (z : Z) : Z := (z + 2 ^ 31) mod 2 ^ 32 - 2 ^ 31.

(** The integer part of a float, rounded toward zero; [None] for a NaN or
    an infinity. *)
Definition trunc_float64 (f : float64) : option Z :=
  match Prim2SF f with
  | S754_zero _ => Some 0
  | S754_finite s m e =>
      let a := if 0 <=? e then Z.pos m * 2 ^ e else Z.pos m / 2 ^ (- e) in
      Some (if s then - a else a)
  | S754_infinity _ => None
  | S754_nan => None
  end.

(** The value fits an [int] of [bits] bits. *)
Definition fits_int (bits : Z) (f : float64) : bool :=
  match trunc_float64 f with
  | Some z => (int_min bits <=? z) && (z <=? int_max bits)
  | None => false
  end.

(** [int(f)] for a [float64]: the fraction is discarded; when the value
    does not fit, the result is whatever the target machine gives,
    [indefinite]. *)
Definition int_of_float64 (bits : Z) (indefinite : Z) (f : float64) : Z :=
  match trunc_float64 f with
  | Some z =>
      if (int_min bits <=? z) && (z <=? int_max bits) then z else indefinite
  | None => indefinite
  end.

(** [s[i]] on a slice: a run-time panic when [i] is out of range. *)
Definition index {T} (s : list T) (i : nat) : outcome T :=
  match nth_error s i with
  | Some v => Returned v
  | None => Panicked "runtime error: index out of range"
  end.

(** *** Channels

    An open channel: its capacity, the values buffered in it, and the
    number of goroutines parked in a receive on it. *)
Record chan (T : Type) : Type := mkChan {
  cap : nat;
  buf : list T;
  recvq : nat
}.
Arguments mkChan {T} cap buf recvq.
Arguments cap {T} c.
Arguments buf {T} c.
Arguments recvq {T} c.

(** A send can proceed when a receiver is waiting (the value is handed
    over) or the buffer has a free slot (the value is stored). *)
Definition try_send {T} (c : chan T) (v : T) : option (chan T) :=
  match recvq c with
  | S n => Some (mkChan (cap c) (buf c) n)
  | O =>
      if Nat.ltb (List.length (buf c)) (cap c)
      then Some (mkChan (cap c) (buf c ++ [v]) O)
      else None
  end.

(** What a [select] with the single case [c <- v] does; [has_default]
    tells whether it has a [default] branch. The boolean of [Returned] is
    true when the send case ran. *)
Definition select_send {T} (has_default : bool) (c : chan T) (v : T)
  : outcome bool * chan T :=
  match try_send c v with
  | Some c' => (Returned true, c')
  | None => if has_default then (Returned false, c) else (Blocked, c)
  end.

End Go.
Import Go.

(* ================================================================== *)
(** ** msh/lib/errco *)

Module Errco.

Inductive LogLvl : Set := LVL_D | LVL_E.

Inductive ErrCode : Set :=
| ERROR_VERSION
| ERROR_GET_CPU_INFO
| ERROR_GET_CORES
| ERROR_GET_MEMORY.

(** [errco.NewErr(code, lvl, origin, str)]. *)
Record Error : Set := NewErr {
  Cod : ErrCode;
  Lvl : LogLvl;
  Ori : string;
  Str : string
}.

End Errco.
Import Errco.

(* ================================================================== *)
(** ** gopsutil *)

Module Gopsutil.

(** [process.Process]: the walk and the sampler only look at [Pid]. *)
Record Process : Set := mkProcess { Pid : Z }.

(** What the operating system shows of a process during one walk: its
    handle, and the answer [proc.Children()] gives when the walk asks for
    it (each handle is asked once). *)
#[local] Set Warnings "-register-all".
Inductive ProcView : Type :=
| View (proc : Process) (children : result (list ProcView)).

(** [cpu.InfoStat], the fields read here. *)
Record InfoStat : Set := mkInfoStat {
  ModelName : string;
  Model : string;
  VendorID : string
}.

(** [mem.VirtualMemoryStat], the field read here (a [uint64]). *)
Record VirtualMemoryStat : Set := mkVirtualMemoryStat { Total : Z }.

End Gopsutil.
Import Gopsutil.

(* ================================================================== *)
(** ** net/http *)

Module Http.

(** [http.Header], as the list of its entries in insertion order. *)
Definition Header : Set := list (string * string).

Definition Header_Add (h : Header) (key value : string) : Header :=
  h ++ [(key, value)].

Definition Header_Set (h : Header) (key value : string) : Header :=
  filter (fun kv => negb (String.eqb (fst kv) key)) h ++ [(key, value)].

Record Request : Set := mkRequest {
  Method : string;
  URL : string;
  ReqHeader : Header;
  ReqBody : string
}.

(** [res.Body]: an identity, and what [ioutil.ReadAll] gets out of it. *)
Record ReadCloser : Set := mkReadCloser {
  body_id : nat;
  body_data : result string
}.

Record Response : Set := mkResponse { Body : ReadCloser }.

(** [http.Client], the field set here (seconds). *)
Record Client : Set := mkClient { Timeout : Z }.

End Http.
Import Http.

(* ================================================================== *)
(** ** msh/lib/model *)

Module Model.

Record Api2ReqSgm : Set := mkApi2ReqSgm {
  Seconds : Z;
  SecondsHibe : Z;
  CpuUsage : float64;
  MemUsage : float64;
  PlayerSec : Z;
  PreTerm : bool
}.

Record Api2ReqMsh : Set := mkApi2ReqMsh {
  ID : string;
  Mshv : string;
  Uptime : Z;
  AllowSuspend : bool;
  Sgm : Api2ReqSgm
}.

Record Api2ReqMachine : Set := mkApi2ReqMachine {
  Os : string;
  Arch : string;
  Javav : string;
  CpuModel : string;
  CpuVendor : string;
  CoresMsh : Z;
  CoresSys : Z;
  Mem : Z
}.

Record Api2ReqServer : Set := mkApi2ReqServer {
  SrvUptime : Z;
  Msv : string;
  MsProt : Z
}.

(** [model.Api2Req], with the fields [buildApi2Req] assigns. *)
Record Api2Req : Set := mkApi2Req {
  Protv : Z;
  Msh : Api2ReqMsh;
  Machine : Api2ReqMachine;
  Server : Api2ReqServer
}.

End Model.
Import Model.

(* ================================================================== *)
(** ** Package state and effects *)

(** [sgm.stats]. *)
Record SegmentStats : Set := mkSegmentStats {
  seconds : Z;
  secondsHibe : Z;
  cpuUsage : float64;
  memUsage : float64;
  playerSec : Z
}.

(** The part of [config.ConfigRuntime] read here. *)
Record Configuration : Set := mkConfiguration {
  cfg_Msh_ID : string;
  cfg_Msh_AllowSuspend : bool;
  cfg_Server_Version : string;
  cfg_Server_Protocol : Z
}.

Inductive LogArg : Set :=
| COLOR_PURPLE
| COLOR_RESET
| ArgString (s : string)
| ArgBytes (b : string).

(** What a run does to the outside, in the order it happens. *)
Inductive Event : Set :=
| EvLogln (lvl : LogLvl) (format : string) (args : list LogArg)
| EvLogMshErr (e : Error)
| EvHttpDo (client : Client) (req : Request)
| EvReqSent (sent : bool)
| EvReadAll (id : nat)
| EvClose (id : nat).

(** The package-level variables the functions read and write, and the
    trace of their effects (oldest first). *)
Record World : Type := mkWorld {
  protv : Z;
  MshVersion : string;
  ConfigRuntime : Configuration;
  config_Javav : string;
  sgm_stats : SegmentStats;
  ReqSent : chan bool;
  trace : list Event
}.

(** Assignment to [sgm.stats], as the segment owner does outside this
    file; no function below uses it. *)
Definition set_sgm_stats (s : SegmentStats) (w : World) : World :=
  mkWorld (protv w) (MshVersion w) (ConfigRuntime w) (config_Javav w)
          s (ReqSent w) (trace w).

Definition set_ReqSent (c : chan bool) (w : World) : World :=
  mkWorld (protv w) (MshVersion w) (ConfigRuntime w) (config_Javav w)
          (sgm_stats w) c (trace w).

Definition add_event (e : Event) (w : World) : World :=
  mkWorld (protv w) (MshVersion w) (ConfigRuntime w) (config_Javav w)
          (sgm_stats w) (ReqSent w) (trace w ++ [e]).

Definition add_events (es : list Event) (w : World) : World :=
  mkWorld (protv w) (MshVersion w) (ConfigRuntime w) (config_Javav w)
          (sgm_stats w) (ReqSent w) (trace w ++ es).

(** A Go function body: it runs from a world and ends in an outcome and a
    world. *)
Definition Prog (A : Type) : Type := World -> outcome A * World.

Definition ret {A} (a : A) : Prog A := fun w => (Returned a, w).

Definition bind {A B} (m : Prog A) (k : A -> Prog B) : Prog B :=
  fun w =>
    match m w with
    | (Returned a, w') => k a w'
    | (Panicked msg, w') => (Panicked msg, w')
    | (Blocked, w') => (Blocked, w')
    end.

Declare Scope prog_scope.
Delimit Scope prog_scope with prog.
Notation "x <- m ;; k" := (bind m (fun x => k))
  (at level 100, m at next level, right associativity) : prog_scope.
Notation "m ;;; k" := (bind m (fun _ => k))
  (at level 100, right associativity) : prog_scope.

Definition read {A} (f : World -> A) : Prog A := fun w => (Returned (f w), w).
Definition emit (e : Event) : Prog unit := fun w => (Returned tt, add_event e w).
Definition lift {A} (o : outcome A) : Prog A := fun w => (o, w).

(** [errco.Logln] and [errco.LogMshErr]. *)
Definition Logln (lvl : LogLvl) (format : string) (args : list LogArg) : Prog unit :=
  emit (EvLogln lvl format args).
Definition LogMshErr (e : Error) : Prog unit := emit (EvLogMshErr e).

(** [defer d] at the top of a body: [d] runs when the body is left, by a
    return or by a panic; a goroutine that is parked never leaves. *)
Definition defer {A} (d : Prog unit) (body : Prog A) : Prog A :=
  fun w =>
    match body w with
    | (Blocked, w') => (Blocked, w')
    | (r, w') =>
        match d w' with
        | (Returned _, w'') => (r, w'')
        | (Panicked msg, w'') => (Panicked msg, w'')
        | (Blocked, w'') => (Blocked, w'')
        end
    end.

(** What the libraries and the operating system answer during a run. *)
Record Env : Type := mkEnv {
  (* runtime, os, time, servctrl *)
  GOOS : string;
  GOARCH : string;
  IntSize : Z;  (* the bits of int: 32 on 386 and arm builds, else 64 *)
  NumCPU : Z;
  Getpid : Z;
  since_startTime_Seconds : float64;  (* time.Since(msh.startTime).Seconds() *)
  int_indefinite : Z;                 (* int(f) of a float that does not fit *)
  TermUpTime : Z;
  (* gopsutil *)
  NewProcess : Z -> result ProcView;
  CPUPercent : Process -> result float64;
  MemoryPercent : Process -> result float64;  (* a float32, widened *)
  cpu_Info : result (list InfoStat);
  cpu_Counts : bool -> result Z;
  mem_VirtualMemory : result VirtualMemoryStat;
  (* encoding/json, net/http *)
  json_Marshal : Api2Req -> result string;
  http_NewRequest_error : string -> string -> option string;
  client_Do : Client -> Request -> result Response
}.

(* ================================================================== *)
(** ** lib/progmgr/utils.go *)

Local Open Scope prog_scope.

(** The handle [&process.Process{Pid: -1}]. *)
Definition sentinel : Process := mkProcess (-1).

(** [treeProc] returns the list of tree pids (with ppid). *)
Fixpoint treeProc (proc : ProcView) : list Process :=
  match proc with
  | View p (Err msg) =>
      (* on linux, if a process does not have children an error is returned *)
      if negb (String.eqb msg "process does not have children")
      then [p]
      else
        (* return pid -1 to indicate that an error occurred *)
        [sentinel]
  | View p (Ok children) =>
      fold_left (fun tree child => tree ++ treeProc child) children [p]
  end.

(** The [for _, c := range treeProc(mshProc)] loop of [getMshTreeStats],
    from the handles still to visit and the two accumulators. *)
Fixpoint sampleLoop (env : Env) (cs : list Process)
    (mshTreeCpu mshTreeMem : float64) : Prog (float64 * float64) :=
  match cs with
  | [] => ret (mshTreeCpu, mshTreeMem)
  | c :: rest =>
      match CPUPercent env c with
      | Err _ =>
          (* return current avg usage in case of error *)
          stats <- read sgm_stats ;;
          ret (cpuUsage stats, memUsage stats)
      | Ok pCpu =>
          match MemoryPercent env c with
          | Err _ =>
              (* return current avg usage in case of error *)
              stats <- read sgm_stats ;;
              ret (cpuUsage stats, memUsage stats)
          | Ok pMem =>
              sampleLoop env rest
                (PrimFloat.add mshTreeCpu pCpu) (PrimFloat.add mshTreeMem pMem)
          end
      end
  end.

(** [getMshTreeStats] returns current msh tree cpu/mem usage. *)
Definition getMshTreeStats (env : Env) : Prog (float64 * float64) :=
  match NewProcess env (wrap_int32 (Getpid env)) with
  | Err _ =>
      (* return current avg usage in case of error *)
      stats <- read sgm_stats ;;
      ret (cpuUsage stats, memUsage stats)
  | Ok mshProc => sampleLoop env (treeProc mshProc) 0%float 0%float
  end.

(** The "get cpu model and vendor" block of [buildApi2Req]: the values of
    [Machine.CpuModel] and [Machine.CpuVendor]. *)
Definition cpuModelVendor (env : Env) : Prog (string * string) :=
  match cpu_Info env with
  | Err msg =>
      LogMshErr (NewErr ERROR_GET_CPU_INFO LVL_D "buildReq" msg) ;;;
      ret ("", "")
  | Ok cpuInfo =>
      c0 <- lift (index cpuInfo 0) ;;
      let CpuModel := ModelName c0 in
      CpuModel <-
        (if String.eqb CpuModel ""
         then c0' <- lift (index cpuInfo 0) ;; ret (Gopsutil.Model c0')
         else ret CpuModel) ;;
      c0'' <- lift (index cpuInfo 0) ;;
      ret (CpuModel, VendorID c0'')
  end.

(** The "get cores dedicated to system" block: [Machine.CoresSys]. *)
Definition coresSys (env : Env) : Prog Z :=
  match cpu_Counts env true with
  | Err msg =>
      LogMshErr (NewErr ERROR_GET_CORES LVL_D "buildReq" msg) ;;;
      ret (-1)
  | Ok cores => ret cores
  end.

(** The "get memory dedicated to system" block: [Machine.Mem]. *)
Definition memSys (env : Env) : Prog Z :=
  match mem_VirtualMemory env with
  | Err msg =>
      LogMshErr (NewErr ERROR_GET_MEMORY LVL_D "buildReq" msg) ;;;
      ret (-1)
  | Ok memInfo => ret (wrap_int (IntSize env) (Total memInfo))
  end.

(** [buildApi2Req] returns Api2Req struct containing data. *)
Definition buildApi2Req (env : Env) (preTerm : bool) : Prog Api2Req :=
  Protv_ <- read protv ;;
  ID_ <- read (fun w => cfg_Msh_ID (ConfigRuntime w)) ;;
  Mshv_ <- read MshVersion ;;
  let Uptime_ :=
    int_of_float64 (IntSize env) (int_indefinite env)
                   (since_startTime_Seconds env) in
  AllowSuspend_ <- read (fun w => cfg_Msh_AllowSuspend (ConfigRuntime w)) ;;
  stats <- read sgm_stats ;;
  let Sgm_ :=
    mkApi2ReqSgm (seconds stats) (secondsHibe stats) (cpuUsage stats)
                 (memUsage stats) (playerSec stats) preTerm in
  let Os_ := GOOS env in
  let Arch_ := GOARCH env in
  Javav_ <- read config_Javav ;;
  (* get cpu model and vendor *)
  mv <- cpuModelVendor env ;;
  (* get cores dedicated to msh *)
  let CoresMsh_ := NumCPU env in
  (* get cores dedicated to system *)
  CoresSys_ <- coresSys env ;;
  (* get memory dedicated to system *)
  Mem_ <- memSys env ;;
  let SrvUptime_ := TermUpTime env in
  Msv_ <- read (fun w => cfg_Server_Version (ConfigRuntime w)) ;;
  MsProt_ <- read (fun w => cfg_Server_Protocol (ConfigRuntime w)) ;;
  ret (mkApi2Req Protv_
         (mkApi2ReqMsh ID_ Mshv_ Uptime_ AllowSuspend_ Sgm_)
         (mkApi2ReqMachine Os_ Arch_ Javav_ (fst mv) (snd mv)
                           CoresMsh_ CoresSys_ Mem_)
         (mkApi2ReqServer SrvUptime_ Msv_ MsProt_)).

(** [http.NewRequest(method, url, bytes.NewReader(body))]: the library
    decides whether the method and the url are acceptable. *)
Definition http_NewRequest (env : Env) (method url body : string) : result Request :=
  match http_NewRequest_error env method url with
  | Some msg => Err msg
  | None => Ok (mkRequest method url [] body)
  end.

Definition MethodPost : string := "POST".

(** The function deferred by [sendApi2Req]:
    [select { case ReqSent <- true: default: }]. *)
Definition publishReqSent : Prog unit :=
  fun w =>
    match select_send true (ReqSent w) true with
    | (Returned sent, c') =>
        (Returned tt, add_event (EvReqSent sent) (set_ReqSent c' w))
    | (Panicked msg, c') => (Panicked msg, set_ReqSent c' w)
    | (Blocked, c') => (Blocked, set_ReqSent c' w)
    end.

(** The statements of [sendApi2Req] after its [defer]. *)
Definition sendApi2Req_body (env : Env) (url : string) (api2req : Api2Req)
  : Prog (option Response * option Error) :=
  Logln LVL_D "sendApi2Req: sending request..." [] ;;;
  (* marshal request struct *)
  match json_Marshal env api2req with
  | Err msg => ret (None, Some (NewErr ERROR_VERSION LVL_D "sendApi2Req" msg))
  | Ok reqByte =>
      (* create http request *)
      match http_NewRequest env MethodPost url reqByte with
      | Err msg => ret (None, Some (NewErr ERROR_VERSION LVL_D "sendApi2Req" msg))
      | Ok req =>
          (* add header User-Agent, Content-Type *)
          mshv <- read MshVersion ;;
          let h1 :=
            Header_Add (ReqHeader req) "User-Agent"
              ("msh/" ++ mshv ++ " (" ++ GOOS env ++ ") " ++ GOARCH env) in
          let h2 := Header_Set h1 "Content-Type" "application/json" in
          let req := mkRequest (Method req) (URL req) h2 (ReqBody req) in
          (* execute http request *)
          Logln LVL_E "%smsh --> mshc%s:%v"
                [COLOR_PURPLE; COLOR_RESET; ArgString reqByte] ;;;
          let client := mkClient 4 in
          emit (EvHttpDo client req) ;;;
          match client_Do env client req with
          | Err msg =>
              ret (None, Some (NewErr ERROR_VERSION LVL_D "sendApi2Req" msg))
          | Ok res => ret (Some res, None)
          end
      end
  end.

(** [sendApi2Req] sends api2 request. *)
Definition sendApi2Req (env : Env) (url : string) (api2req : Api2Req)
  : Prog (option Response * option Error) :=
  (* before returning, communicate that request has been sent *)
  defer publishReqSent (sendApi2Req_body env url api2req).

Section ReadApi2Res.

(** [model.Api2Res], and [json.Unmarshal(data, &resJson)] on it: what the
    call leaves in [resJson] (a pointer, possibly nil) and its error. *)
Variable Api2Res : Type.
Variable json_Unmarshal : string -> option Api2Res * option string.

(** [res.Body.Close()]. *)
Definition Body_Close (res : Response) : Prog unit :=
  emit (EvClose (body_id (Body res))).

(** [ioutil.ReadAll(res.Body)]. *)
Definition ioutil_ReadAll (res : Response) : Prog (result string) :=
  emit (EvReadAll (body_id (Body res))) ;;;
  ret (body_data (Body res)).

(** The statements of [readApi2Res] after its [defer]. *)
Definition readApi2Res_body (res : Response)
  : Prog (option Api2Res * option Error) :=
  Logln LVL_D "readApi2Res: reading response..." [] ;;;
  (* read http response *)
  r <- ioutil_ReadAll res ;;
  match r with
  | Err msg => ret (None, Some (NewErr ERROR_VERSION LVL_D "readApi2Res" msg))
  | Ok resByte =>
      Logln LVL_E "%smshc --> msh%s:%v"
            [COLOR_PURPLE; COLOR_RESET; ArgBytes resByte] ;;;
      (* load res data into resJson *)
      match json_Unmarshal resByte with
      | (_, Some msg) =>
          ret (None, Some (NewErr ERROR_VERSION LVL_D "readApi2Res" msg))
      | (resJson, None) => ret (resJson, None)
      end
  end.

(** [readApi2Res] returns response in api2 struct. *)
Definition readApi2Res (res : Response) : Prog (option Api2Res * option Error) :=
  defer (Body_Close res) (readApi2Res_body res).

End ReadApi2Res.
Arguments readApi2Res {Api2Res} json_Unmarshal res.
Arguments readApi2Res_body {Api2Res} json_Unmarshal res.

(* ================================================================== *)
(** ** Vocabulary of the statements *)

(** The pair [(sgm.stats.cpuUsage, sgm.stats.memUsage)] held by a world. *)
Definition storedUsage (w : World) : float64 * float64 :=
  (cpuUsage (sgm_stats w), memUsage (sgm_stats w)).

(** A handle one of whose two queries fails. *)
Definition queryFails (env : Env) (c : Process) : Prop :=
  (exists msg, CPUPercent env c = Err msg)
  \/ (exists msg, MemoryPercent env c = Err msg).

(** The percentages of a handle whose queries succeed. *)
Definition cpuOf (env : Env) (c : Process) : float64 :=
  match CPUPercent env c with Ok pCpu => pCpu | Err _ => 0%float end.

Definition memOf (env : Env) (c : Process) : float64 :=
  match MemoryPercent env c with Ok pMem => pMem | Err _ => 0%float end.

(** The running total of a list of percentages, from [acc], in list
    order (float addition is not associative). *)
Definition sumFrom (acc : float64) (xs : list float64) : float64 :=
  fold_left PrimFloat.add xs acc.

Definition isReqSent (e : Event) : bool :=
  match e with EvReqSent _ => true | _ => false end.

Definition isHttpDo (e : Event) : bool :=
  match e with EvHttpDo _ _ => true | _ => false end.

Definition isClose (e : Event) : bool :=
  match e with EvClose _ => true | _ => false end.

(* ================================================================== *)
(** ** Example inputs *)

Module Examples.

Definition stats0 : SegmentStats :=
  mkSegmentStats 120 30 12.5%float 8%float 90.

Definition world0 : World :=
  mkWorld 2 "v2.4.9"
    (mkConfiguration "0123456789abcdef0123456789abcdef01234567" true "1.19.2" 760)
    "17.0.4" stats0 (mkChan 1 [] 0) [].

(** msh (pid 100) runs java (pid 101), which runs a helper (pid 102); on
    linux a process without children answers with an error. *)
Definition leaf (pid : Z) : ProcView :=
  View (mkProcess pid) (Err "process does not have children").

Definition tree_linux : ProcView :=
  View (mkProcess 100) (Ok [View (mkProcess 101) (Ok [leaf 102])]).

(** The same tree where a process without children answers with an empty
    list, and one where pid 101 is gone when it is asked. *)
Definition tree_plain : ProcView :=
  View (mkProcess 100)
    (Ok [View (mkProcess 101) (Ok [View (mkProcess 102) (Ok [])]);
         View (mkProcess 103) (Ok [])]).

Definition tree_vanished : ProcView :=
  View (mkProcess 100)
    (Ok [View (mkProcess 101) (Err "no such process");
         View (mkProcess 103) (Ok [])]).

Definition percent (p : Process) : result float64 :=
  if Pid p =? 100 then Ok 1.5%float
  else if Pid p =? 101 then Ok 40.25%float
  else if Pid p =? 102 then Ok 0.5%float
  else if Pid p =? 103 then Ok 2%float
  else Err "no such process".

Definition env0 : Env :=
  mkEnv "linux" "amd64" 64 8 100 3600.75%float (int_min 64) 1800
    (fun pid => if pid =? 100 then Ok tree_plain else Err "no such process")
    percent percent
    (Ok [mkInfoStat "" "158" "GenuineIntel"])
    (fun _ => Ok 16)
    (Ok (mkVirtualMemoryStat 17179869184))
    (fun _ => Ok "{}")
    (fun _ _ => None)
    (fun _ _ => Ok (mkResponse (mkReadCloser 7 (Ok "{}")))).

Definition with_tree (t : ProcView) (e : Env) : Env :=
  mkEnv (GOOS e) (GOARCH e) (IntSize e) (NumCPU e) (Getpid e)
    (since_startTime_Seconds e)
    (int_indefinite e) (TermUpTime e)
    (fun pid => if pid =? 100 then Ok t else Err "no such process")
    (CPUPercent e) (MemoryPercent e) (cpu_Info e) (cpu_Counts e)
    (mem_VirtualMemory e) (json_Marshal e) (http_NewRequest_error e)
    (client_Do e).

Definition with_cpu_Info (i : result (list InfoStat)) (e : Env) : Env :=
  mkEnv (GOOS e) (GOARCH e) (IntSize e) (NumCPU e) (Getpid e)
    (since_startTime_Seconds e)
    (int_indefinite e) (TermUpTime e) (NewProcess e)
    (CPUPercent e) (MemoryPercent e) i (cpu_Counts e)
    (mem_VirtualMemory e) (json_Marshal e) (http_NewRequest_error e)
    (client_Do e).

End Examples.

(* ================================================================== *)
(** ** lib/config/config-utils.go *)

Module Config.

(** The levels and codes of errco that package config uses. *)
Inductive LogLvl : Set := LVL_1 | LVL_3.

Inductive ErrCode : Set :=
| ERROR_PLAYER_NOT_IN_WHITELIST
| ERROR_ICON_LOAD
| ERROR_CONFIG_LOAD
| ERROR_CONVERSION
| ERROR_VERSION_LOAD
| ERROR_CONFIG_CHECK.

Record Error : Set := NewErr {
  Cod : ErrCode;
  Lvl : LogLvl;
  Ori : string;
  Str : string
}.

(** [config.Configuration], the fields this file touches. *)
Record Configuration : Set := mkConfiguration {
  Msh_ID : string;
  Msh_Whitelist : list string;
  Msh_ListenPort : Z;
  Server_Folder : string;
  Server_FileName : string
}.

Definition set_Msh_ID (id : string) (c : Configuration) : Configuration :=
  mkConfiguration id (Msh_Whitelist c) (Msh_ListenPort c)
                  (Server_Folder c) (Server_FileName c).

(** [model.VersionInfo], the fields read here. *)
Record VersionInfo : Set := mkVersionInfo {
  Version : string;
  Protocol : Z
}.

Inductive LogArg : Set :=
| ArgStr (s : string)
| ArgInt (z : Z).

(** Effects: log lines, and files and archives being opened and closed,
    named by their path or entry name. *)
Inductive Event : Set :=
| EvLogln (lvl : LogLvl) (format : string) (args : list LogArg)
| EvLogMshErr (e : Error)
| EvOpen (name : string)
| EvClose (name : string).

(** The package-level variables of config written here, and the trace. *)
Record State : Set := mkState {
  ServerIcon : string;
  ListenPort : Z;
  TargetPort : Z;
  configDefaultSave : bool;
  trace : list Event
}.

Definition emit (e : Event) (st : State) : State :=
  mkState (ServerIcon st) (ListenPort st) (TargetPort st)
          (configDefaultSave st) (trace st ++ [e]).

Definition emits (es : list Event) (st : State) : State :=
  mkState (ServerIcon st) (ListenPort st) (TargetPort st)
          (configDefaultSave st) (trace st ++ es).

Definition set_ServerIcon (icon : string) (st : State) : State :=
  mkState icon (ListenPort st) (TargetPort st) (configDefaultSave st) (trace st).

Definition set_ListenPort (port : Z) (st : State) : State :=
  mkState (ServerIcon st) port (TargetPort st) (configDefaultSave st) (trace st).

Definition set_TargetPort (port : Z) (st : State) : State :=
  mkState (ServerIcon st) (ListenPort st) port (configDefaultSave st) (trace st).

Definition set_configDefaultSave (b : bool) (st : State) : State :=
  mkState (ServerIcon st) (ListenPort st) (TargetPort st) b (trace st).

(** *** InWhitelist *)

Section Whitelist.

(** [utility.SliceContain(str, slice)]. *)
Variable SliceContain : string -> list string -> bool.

Definition notWhitelisted : Error :=
  NewErr ERROR_PLAYER_NOT_IN_WHITELIST LVL_1 "InWhitelist"
         "playerName or clientAddress is not whitelisted".

(** The [for _, p := range params] loop and what follows it. *)
Fixpoint inWhitelistLoop (whitelist params : list string) (st : State)
  : option Error * State :=
  match params with
  | [] =>
      (* playerName or clientAddress not found in whitelist *)
      (Some notWhitelisted,
       emit (EvLogln LVL_3 "playerName or clientAddress is not whitelisted!" []) st)
  | p :: rest =>
      if SliceContain p whitelist
      then (None,
            emit (EvLogln LVL_3 "playerName or clientAddress is whitelisted!" []) st)
      else inWhitelistLoop whitelist rest st
  end.

(** [InWhitelist] checks if the playerName or clientAddress is in config
    whitelist. *)
Definition InWhitelist (c : Configuration) (params : list string) (st : State)
  : option Error * State :=
  (* check if whitelist is enabled *)
  (* if empty then it is not enabled and no checks are needed *)
  if Nat.eqb (List.length (Msh_Whitelist c)) 0
  then (None, emit (EvLogln LVL_3 "whitelist not enabled" []) st)
  else
    inWhitelistLoop (Msh_Whitelist c) params
      (emit (EvLogln LVL_3 "checking whitelist for: %s"
                     [ArgStr (String.concat ", " params)]) st).

End Whitelist.

(** *** loadIcon *)

Section Icon.

Variable Image : Type.
Variable defaultServerIcon : string.
Variable filepath_Join : string -> string -> string.
(** [os.IsNotExist(err)] for the error of [os.Stat(path)]. *)
Variable stat_IsNotExist : string -> bool.
(** [os.Open(path)]: the error text, if it fails. *)
Variable os_Open : string -> option string.
(** [ioutil.ReadAll(f)] for the file opened at a path. *)
Variable ioutil_ReadAll : string -> result string.
Variable png_Decode : string -> result Image.
Variable jpeg_Decode : string -> result Image.
(** [utility.ScaleImg(img, image.Rect(0, 0, 64, 64))]: the image, and the
    milliseconds it took. *)
Variable ScaleImg : Image -> Image * Z.
(** [(&png.Encoder{CompressionLevel: -3}).Encode(buff, img)]: the bytes
    left in [buff]. *)
Variable png_Encode : Image -> result string.
Variable base64_RawStdEncoding : string -> string.

Definition iconErr (msg : string) : Event :=
  EvLogMshErr (NewErr ERROR_ICON_LOAD LVL_3 "loadIcon" msg).

(** The [for _, uip := range userIconPaths] loop; [deferred] are the
    files whose [Close] is deferred so far, latest first. The result is
    the state and the deferred files when the loop is left. *)
Fixpoint loadIconLoop (userIconPaths : list string) (deferred : list string)
    (st : State) : State * list string :=
  match userIconPaths with
  | [] => (st, deferred)
  | uip :: rest =>
      (* check if user specified icon exists *)
      if stat_IsNotExist uip
      then loadIconLoop rest deferred st
      else
        (* open file *)
        match os_Open uip with
        | Some msg => loadIconLoop rest deferred (emit (iconErr msg) st)
        | None =>
            let st := emit (EvOpen uip) st in
            let deferred := uip :: deferred in
            (* read file data *)
            match ioutil_ReadAll uip with
            | Err msg => loadIconLoop rest deferred (emit (iconErr msg) st)
            | Ok fdata =>
                (* decode image (try different formats) *)
                let decoded :=
                  match png_Decode fdata with
                  | Ok img => Ok img
                  | Err _ => jpeg_Decode fdata
                  end in
                match decoded with
                | Err msg =>
                    loadIconLoop rest deferred
                      (emit (iconErr ("data format invalid: " ++ uip
                                      ++ " (" ++ msg ++ ")")%string) st)
                | Ok img =>
                    (* scale image to 64x64 *)
                    let (scaImg, d) := ScaleImg img in
                    let st :=
                      emit (EvLogln LVL_3 "scaled %s to 64x64. (%v ms)"
                                    [ArgStr uip; ArgInt d]) st in
                    (* encode image to png *)
                    match png_Encode scaImg with
                    | Err msg => loadIconLoop rest deferred (emit (iconErr msg) st)
                    | Ok buff =>
                        (* load user specified server icon as base64 encoded string *)
                        (* as soon as a good image is loaded, break and return *)
                        (set_ServerIcon (base64_RawStdEncoding buff) st, deferred)
                    end
                end
            end
        end
  end.

(** [loadIcon] tries to load user specified server icon (base-64 encoded
    and compressed). The default icon is loaded by default. *)
Definition loadIcon (c : Configuration) (st : State) : option Error * State :=
  (* set default server icon *)
  let st := set_ServerIcon defaultServerIcon st in
  (* get the path of the user specified server icon *)
  let userIconPaths :=
    [] ++ [filepath_Join (Server_Folder c) "server-icon-frozen.png"]
       ++ [filepath_Join (Server_Folder c) "server-icon-frozen.jpg"] in
  let (st, deferred) := loadIconLoop userIconPaths [] st in
  (None, emits (map EvClose deferred) st).

(** For the statements: the icon a candidate path yields when every
    step on it succeeds. *)
Definition iconOf (uip : string) : option string :=
  if stat_IsNotExist uip then None
  else
    match os_Open uip with
    | Some _ => None
    | None =>
        match ioutil_ReadAll uip with
        | Err _ => None
        | Ok fdata =>
            match match png_Decode fdata with
                  | Ok img => Ok img
                  | Err _ => jpeg_Decode fdata
                  end with
            | Err _ => None
            | Ok img =>
                match png_Encode (fst (ScaleImg img)) with
                | Err _ => None
                | Ok buff => Some (base64_RawStdEncoding buff)
                end
            end
        end
    end.

(** The icon of the first candidate that yields one. *)
Fixpoint firstIcon (paths : list string) : option string :=
  match paths with
  | [] => None
  | uip :: rest =>
      match iconOf uip with
      | Some icon => Some icon
      | None => firstIcon rest
      end
  end.

End Icon.

Definition isOpen (e : Event) : bool :=
  match e with EvOpen _ => true | _ => false end.

Definition isClose (e : Event) : bool :=
  match e with EvClose _ => true | _ => false end.

Definition isFile (e : Event) : bool := isOpen e || isClose e.

(** *** loadIpPorts *)

(** [strings.ReplaceAll] of every carriage return by nothing. *)
Fixpoint removeCR (s : string) : string :=
  match s with
  | EmptyString => EmptyString
  | String a rest =>
      if Ascii.eqb a "013"%char then removeCR rest else String a (removeCR rest)
  end.

Section IpPorts.

Variable filepath_Join : string -> string -> string.
Variable ioutil_ReadFile : string -> result string.
(** [utility.StrBetween(str, a, b)] and the [AddTrace] method of an
    errco error. *)
Variable StrBetween : string -> string -> string -> string * option Error.
Variable AddTrace : Error -> string -> Error.
(** [strconv.Atoi(s)]: the value it returns, and its error. *)
Variable strconv_Atoi : string -> Z * option string.

(** [loadIpPorts] reads server.properties server file and loads correct
    ports to global variables. *)
Definition loadIpPorts (c : Configuration) (st : State) : option Error * State :=
  (* ListenHost remains the same *)
  let st := set_ListenPort (Msh_ListenPort c) st in
  (* TargetPort is extracted from server.properties *)
  match ioutil_ReadFile (filepath_Join (Server_Folder c) "server.properties") with
  | Err msg => (Some (NewErr ERROR_CONFIG_LOAD LVL_1 "loadIpPorts" msg), st)
  | Ok data =>
      match StrBetween (removeCR data) "server-port=" (String "010"%char "") with
      | (_, Some errMsh) => (Some (AddTrace errMsh "loadIpPorts"), st)
      | (TargetPortStr, None) =>
          let (port, err) := strconv_Atoi TargetPortStr in
          let st := set_TargetPort port st in
          match err with
          | Some msg => (Some (NewErr ERROR_CONVERSION LVL_3 "loadIpPorts" msg), st)
          | None =>
              if TargetPort st =? Msh_ListenPort c
              then (Some (NewErr ERROR_CONFIG_LOAD LVL_1 "loadIpPorts"
                            "TargetPort and ListenPort appear to be the same, please change one of them"),
                    st)
              else (None, st)
          end
      end
  end.

End IpPorts.

(** *** getVersionInfo *)

(** An entry of the archive: its name, and what [file.Open()] gives: an
    error, or a reader with what [ioutil.ReadAll] gets out of it. *)
Record ZipFile : Set := mkZipFile {
  Name : string;
  Open : result (result string)
}.

Section Version.

Variable filepath_Join : string -> string -> string.
Variable zip_OpenReader : string -> result (list ZipFile).
(** [json.Unmarshal(data, &info)]: what it leaves in [info], and its
    error. *)
Variable json_Unmarshal : string -> VersionInfo * option string.

Definition versionErr (msg : string) : Error :=
  NewErr ERROR_VERSION_LOAD LVL_3 "getVersionInfo" msg.

(** The [for _, file := range reader.File] loop and the return after it.
    The last component lists the entries whose [Close] was deferred. *)
Fixpoint versionLoop (files : list ZipFile) (st : State)
  : (string * Z * option Error) * State * list string :=
  match files with
  | [] =>
      (("", 0,
        Some (versionErr
                "minecraft server version and protocol could not be extracted from version.json")),
       st, [])
  | file :: rest =>
      (* search for version.json file *)
      if negb (String.eqb (Name file) "version.json")
      then versionLoop rest st
      else
        match Open file with
        | Err msg => (("", 0, Some (versionErr msg)), st, [])
        | Ok content =>
            let st := emit (EvOpen (Name file)) st in
            match content with
            | Err msg => (("", 0, Some (versionErr msg)), st, [Name file])
            | Ok versionsBytes =>
                match json_Unmarshal versionsBytes with
                | (_, Some msg) =>
                    (("", 0, Some (versionErr msg)), st, [Name file])
                | (info, None) =>
                    ((Version info, Protocol info, None), st, [Name file])
                end
            end
        end
  end.

(** [getVersionInfo] reads version.json from the server JAR file and
    returns minecraft server version and protocol. In case of error the
    empty string, 0 and an error are returned. *)
Definition getVersionInfo (c : Configuration) (st : State)
  : (string * Z * option Error) * State :=
  let path := filepath_Join (Server_Folder c) (Server_FileName c) in
  match zip_OpenReader path with
  | Err msg => (("", 0, Some (versionErr msg)), st)
  | Ok files =>
      let st := emit (EvOpen path) st in
      let '(r, st, deferred) := versionLoop files st in
      (r, emits (map EvClose (deferred ++ [path])) st)
  end.

End Version.

(** *** assignMshID *)

(** [hex.EncodeToString]. *)
Definition hexDigit (n : N) : ascii :=
  match n with
  | 0%N => "0" | 1%N => "1" | 2%N => "2" | 3%N => "3"
  | 4%N => "4" | 5%N => "5" | 6%N => "6" | 7%N => "7"
  | 8%N => "8" | 9%N => "9" | 10%N => "a" | 11%N => "b"
  | 12%N => "c" | 13%N => "d" | 14%N => "e" | _ => "f"
  end%char.

Fixpoint hex_EncodeToString (src : string) : string :=
  match src with
  | EmptyString => EmptyString
  | String a rest =>
      String (hexDigit (N.div (N_of_ascii a) 16))
        (String (hexDigit (N.modulo (N_of_ascii a) 16))
           (hex_EncodeToString rest))
  end.

Section MshID.

(** The 64 bytes in [key] after [rand.Read(key)], and the digest that
    [sha1.New()], [Write(key)], [Sum(nil)] gives for a key. *)
Variable randomKey : string.
Variable sha1_Sum : string -> string.

(** [assignMshID] assigns a mshid to config. Config mshid is kept if
    valid, otherwise a new random one is generated. *)
Definition assignMshID (c : Configuration) (st : State) : Configuration * State :=
  if Nat.eqb (String.length (Msh_ID c)) 40
  then
    (* use mshid already present in config *)
    (c, emit (EvLogMshErr (NewErr ERROR_CONFIG_CHECK LVL_3 "assignMshID"
                             "mshid in config is valid, keeping it")) st)
  else
    (* generate random mshid *)
    let c := set_Msh_ID (hex_EncodeToString (sha1_Sum randomKey)) c in
    let st := set_configDefaultSave true st in
    (c, emit (EvLogMshErr (NewErr ERROR_CONFIG_CHECK LVL_3 "assignMshID"
                             ("mshid in config is not valid, new one is: "
                              ++ Msh_ID c)%string)) st).

End MshID.

End Config.

(* ================================================================== *)
(** ** Vocabulary of the further statements *)

(** Every handle of an observed tree, parents before children. *)
Fixpoint handles (v : ProcView) : list Process :=
  match v with
  | View p (Ok children) => p :: flat_map handles children
  | View p (Err _) => [p]
  end.

(** Every [Children()] of the tree answers with a list. *)
Fixpoint enumerates (v : ProcView) : bool :=
  match v with
  | View _ (Ok children) => forallb enumerates children
  | View _ (Err _) => false
  end.

(** A tree as linux shows it: a process with children answers with their
    non-empty list, a process without children with the "no children"
    error. *)
Fixpoint linuxTree (v : ProcView) : bool :=
  match v with
  | View _ (Ok children) =>
      negb (Nat.eqb (List.length children) 0) && forallb linuxTree children
  | View _ (Err msg) => String.eqb msg "process does not have children"
  end.

(** The diagnostics of the host lookups that failed, in the order
    [buildApi2Req] makes the lookups. *)
Definition diagnostics (env : Env) : list Event :=
  match cpu_Info env with
  | Err msg => [EvLogMshErr (NewErr ERROR_GET_CPU_INFO LVL_D "buildReq" msg)]
  | Ok _ => []
  end
  ++ match cpu_Counts env true with
     | Err msg => [EvLogMshErr (NewErr ERROR_GET_CORES LVL_D "buildReq" msg)]
     | Ok _ => []
     end
  ++ match mem_VirtualMemory env with
     | Err msg => [EvLogMshErr (NewErr ERROR_GET_MEMORY LVL_D "buildReq" msg)]
     | Ok _ => []
     end.

(** The request [sendApi2Req] hands to [client.Do] for a body. *)
Definition wireRequest (env : Env) (w : World) (url reqByte : string) : Request :=
  mkRequest "POST" url
    [("User-Agent",
      ("msh/" ++ MshVersion w ++ " (" ++ GOOS env ++ ") " ++ GOARCH env)%string);
     ("Content-Type", "application/json")]
    reqByte.

Definition isReadAll (e : Event) : bool :=
  match e with EvReadAll _ => true | _ => false end.

(** The host of an environment as a 386 build sees it, with a given total
    memory. *)
Definition on386 (total : Z) (e : Env) : Env :=
  mkEnv (GOOS e) "386" 32 (NumCPU e) (Getpid e) (since_startTime_Seconds e)
    (int_indefinite e) (TermUpTime e) (NewProcess e)
    (CPUPercent e) (MemoryPercent e) (cpu_Info e) (cpu_Counts e)
    (Ok (mkVirtualMemoryStat total)) (json_Marshal e) (http_NewRequest_error e)
    (client_Do e).

(* ================================================================== *)
(** ** The tree walk *)

Lemma fold_left_app_flat_map :
  forall (A B : Type) (f : B -> list A) (l : list B) (acc : list A),
    fold_left (fun tree child => tree ++ f child) l acc = acc ++ flat_map f l.
Proof.
  intros A B f l; induction l as [|b l IH]; intros acc; simpl.
  - now rewrite app_nil_r.
  - rewrite IH. now rewrite <- app_assoc.
Qed.

(** When [Children()] answers with a list, the walk is the node followed
    by the walks of the children, in the order of the list. *)
Lemma treeProc_Ok :
  forall p children,
    treeProc (View p (Ok children)) = p :: flat_map treeProc children.
Proof.
  intros p children. simpl. now rewrite fold_left_app_flat_map.
Qed.

(** The walk always returns at least one handle. *)
Lemma treeProc_nonempty : forall v, treeProc v <> [].
Proof.
  intros [p [children|msg]].
  - rewrite treeProc_Ok. discriminate.
  - simpl. destruct (String.eqb msg _); discriminate.
Qed.

(** Unless [Children()] of the root answers with the "no children" error,
    the first handle of the walk is the root. *)
Lemma treeProc_root_first :
  forall p r,
    r <> Err "process does not have children" ->
    exists rest, treeProc (View p r) = p :: rest.
Proof.
  intros p [children|msg] Hr.
  - rewrite treeProc_Ok. eauto.
  - simpl. destruct (String.eqb_spec msg "process does not have children") as [->|_].
    + now contradiction Hr.
    + simpl. eauto.
Qed.

Example treeProc_plain :
  treeProc Examples.tree_plain
  = [mkProcess 100; mkProcess 101; mkProcess 102; mkProcess 103].
Proof. reflexivity. Qed.

Example treeProc_vanished :
  treeProc Examples.tree_vanished = [mkProcess 100; mkProcess 101; mkProcess 103].
Proof. reflexivity. Qed.

Example treeProc_linux :
  treeProc Examples.tree_linux = [mkProcess 100; mkProcess 101; sentinel].
Proof. reflexivity. Qed.

(** C1. What the walk does at a node whose [Children()] fails. The claim
    is that a node that fails because it has no children is emitted itself
    and a node that fails for another reason is replaced by the sentinel
    (pid -1). The code tests the error text with [!=]: the node that has no
    children is the one replaced by the sentinel, and a node that fails for
    any other reason is emitted itself. *)
Theorem treeProc_children_error :
  forall (p : Process) (msg : string),
    treeProc (View p (Err msg))
    = if String.eqb msg "process does not have children"
      then [sentinel] else [p].
Proof.
  intros p msg. simpl.
  now destruct (String.eqb msg "process does not have children").
Qed.

(** C2. The walk of a root that has no children, on linux, where
    [Children()] then answers with the "no children" error: the claim is
    a non-empty sequence that starts with the root; the code returns the
    sentinel alone, so the first handle is not the root. *)
Theorem treeProc_childless_root :
  treeProc (Examples.leaf 100) = [sentinel]
  /\ hd_error (treeProc (Examples.leaf 100)) <> Some (mkProcess 100).
Proof. split; [reflexivity | discriminate]. Qed.

(* ================================================================== *)
(** ** The sampler *)

Section Sampler.

Variable env : Env.

(** The loop reads the world and never changes it. *)
Lemma sampleLoop_frame :
  forall cs a b w, snd (sampleLoop env cs a b w) = w.
Proof.
  induction cs as [|c cs IH]; intros a b w; simpl.
  - reflexivity.
  - destruct (CPUPercent env c); [|reflexivity].
    destruct (MemoryPercent env c); [|reflexivity].
    apply IH.
Qed.

(** One failing query anywhere in the list makes the loop return the
    stored pair, whatever was accumulated before. *)
Lemma sampleLoop_fails :
  forall cs a b w,
    Exists (queryFails env) cs ->
    sampleLoop env cs a b w = (Returned (storedUsage w), w).
Proof.
  induction cs as [|c cs IH]; intros a b w HE.
  - inversion HE.
  - simpl. destruct (CPUPercent env c) as [pCpu|m] eqn:Ecpu; [|reflexivity].
    destruct (MemoryPercent env c) as [pMem|m] eqn:Emem; [|reflexivity].
    apply IH. inversion HE as [? ? Hc|? ? Hcs]; subst; [|assumption].
    destruct Hc as [[msg Hc]|[msg Hc]]; congruence.
Qed.

(** When every query succeeds the loop adds every percentage, in walk
    order, to the accumulators it started from. *)
Lemma sampleLoop_sums :
  forall cs a b w,
    Forall (fun c => ~ queryFails env c) cs ->
    sampleLoop env cs a b w
    = (Returned (sumFrom a (map (cpuOf env) cs), sumFrom b (map (memOf env) cs)), w).
Proof.
  induction cs as [|c cs IH]; intros a b w HF.
  - reflexivity.
  - inversion HF as [|? ? Hc Hcs]; subst.
    simpl. unfold cpuOf at 1, memOf at 1.
    destruct (CPUPercent env c) as [pCpu|m] eqn:Ecpu.
    + destruct (MemoryPercent env c) as [pMem|m] eqn:Emem.
      * now apply IH.
      * exfalso. apply Hc. right. eauto.
    + exfalso. apply Hc. left. eauto.
Qed.

(** The loop always returns: it neither panics nor blocks. *)
Lemma sampleLoop_returns :
  forall cs a b w, exists r, fst (sampleLoop env cs a b w) = Returned r.
Proof.
  induction cs as [|c cs IH]; intros a b w; simpl.
  - eexists; reflexivity.
  - destruct (CPUPercent env c); [|eexists; reflexivity].
    destruct (MemoryPercent env c); [|eexists; reflexivity].
    apply IH.
Qed.

End Sampler.

(** C3. Fail-safe sampling: when the root process cannot be resolved, or
    a cpu or memory query fails on a handle of the walk (the sentinel
    handle with pid -1 is such a handle when its query fails),
    [getMshTreeStats] returns exactly the pair [(cpuUsage, memUsage)] that
    [sgm.stats] held when it was called: not zero, not a partial sum. *)
Theorem getMshTreeStats_failsafe :
  forall (env : Env) (w : World),
    (exists msg, NewProcess env (wrap_int32 (Getpid env)) = Err msg)
    \/ (exists mshProc c,
          NewProcess env (wrap_int32 (Getpid env)) = Ok mshProc
          /\ In c (treeProc mshProc)
          /\ queryFails env c) ->
    getMshTreeStats env w
    = (Returned (cpuUsage (sgm_stats w), memUsage (sgm_stats w)), w).
Proof.
  intros env w [[msg H]|(mshProc & c & H & Hin & Hc)];
    unfold getMshTreeStats; rewrite H.
  - reflexivity.
  - apply sampleLoop_fails, Exists_exists. eauto.
Qed.

Lemma getMshTreeStats_failsafe_witness :
  getMshTreeStats (Examples.with_tree Examples.tree_linux Examples.env0)
                  Examples.world0
  = (Returned (12.5%float, 8%float), Examples.world0).
Proof.
  apply (getMshTreeStats_failsafe
           (Examples.with_tree Examples.tree_linux Examples.env0)
           Examples.world0).
  right. exists Examples.tree_linux, sentinel.
  split; [reflexivity|]. split; [simpl; tauto|].
  left. exists "no such process". reflexivity.
Defined.

(** The sentinel handle in the walk, with a failing query on it, is one
    of the failures above. *)
Lemma getMshTreeStats_sentinel :
  forall env w mshProc msg,
    NewProcess env (wrap_int32 (Getpid env)) = Ok mshProc ->
    In sentinel (treeProc mshProc) ->
    CPUPercent env sentinel = Err msg ->
    fst (getMshTreeStats env w) = Returned (storedUsage w).
Proof.
  intros env w mshProc msg H Hin Hc. unfold getMshTreeStats. rewrite H.
  rewrite sampleLoop_fails; [reflexivity|].
  apply Exists_exists. exists sentinel. split; [assumption|]. left. eauto.
Qed.

(** C7. When the root resolves and every cpu and memory query succeeds,
    [getMshTreeStats] returns the two totals over the handles of the walk:
    the cpu percentages added up from 0, and the memory percentages added
    up from 0 (sums, not averages). *)
Theorem getMshTreeStats_sums :
  forall (env : Env) (w : World) (mshProc : ProcView),
    NewProcess env (wrap_int32 (Getpid env)) = Ok mshProc ->
    (forall c, In c (treeProc mshProc) -> ~ queryFails env c) ->
    getMshTreeStats env w
    = (Returned (sumFrom 0%float (map (cpuOf env) (treeProc mshProc)),
                 sumFrom 0%float (map (memOf env) (treeProc mshProc))), w).
Proof.
  intros env w mshProc H Hall. unfold getMshTreeStats. rewrite H.
  apply sampleLoop_sums, Forall_forall. exact Hall.
Qed.

Lemma getMshTreeStats_sums_witness :
  getMshTreeStats Examples.env0 Examples.world0
  = (Returned (44.25%float, 44.25%float), Examples.world0).
Proof.
  apply (getMshTreeStats_sums Examples.env0 Examples.world0 Examples.tree_plain).
  - reflexivity.
  - intros c Hin [[msg H]|[msg H]];
      simpl in Hin;
      repeat (destruct Hin as [<-|Hin]; [discriminate H|]);
      exact Hin.
Defined.

(** C10. [getMshTreeStats] writes no field of [sgm.stats]: it returns,
    and the five fields are the same after the call as before it, whether
    the sample succeeded or fell back. *)
Theorem getMshTreeStats_frame :
  forall (env : Env) (w : World),
    (exists r, fst (getMshTreeStats env w) = Returned r)
    /\ seconds (sgm_stats (snd (getMshTreeStats env w))) = seconds (sgm_stats w)
    /\ secondsHibe (sgm_stats (snd (getMshTreeStats env w)))
       = secondsHibe (sgm_stats w)
    /\ cpuUsage (sgm_stats (snd (getMshTreeStats env w))) = cpuUsage (sgm_stats w)
    /\ memUsage (sgm_stats (snd (getMshTreeStats env w))) = memUsage (sgm_stats w)
    /\ playerSec (sgm_stats (snd (getMshTreeStats env w)))
       = playerSec (sgm_stats w).
Proof.
  intros env w.
  assert (Hw : snd (getMshTreeStats env w) = w).
  { unfold getMshTreeStats.
    destruct (NewProcess env _); [apply sampleLoop_frame | reflexivity]. }
  rewrite Hw. split; [|tauto].
  unfold getMshTreeStats.
  destruct (NewProcess env _) as [mshProc|msg];
    [apply sampleLoop_returns | eexists; reflexivity].
Qed.

(* ================================================================== *)
(** ** The request builder *)

(** [int(f)] of a float that is not negative and fits is not negative. *)
Lemma int_of_float64_nonneg :
  forall (bits indefinite : Z) (f : float64),
    PrimFloat.leb 0%float f = true ->
    fits_int bits f = true ->
    0 <= int_of_float64 bits indefinite f.
Proof.
  intros bits indefinite f Hle Hfit.
  rewrite leb_spec in Hle.
  change (Prim2SF 0%float) with (S754_zero false) in Hle.
  unfold int_of_float64. unfold fits_int in Hfit.
  unfold trunc_float64 in *.
  destruct (Prim2SF f) as [s|s| |s m e]; try discriminate Hfit.
  - rewrite Hfit. lia.
  - destruct s; [discriminate Hle|].
    rewrite Hfit.
    destruct (0 <=? e) eqn:He.
    + apply Z.leb_le in He. apply Z.mul_nonneg_nonneg; [lia|].
      apply Z.pow_nonneg; lia.
    + apply Z.div_pos; [lia|]. apply Z.pow_pos_nonneg; lia.
Qed.

(** The model name falls back on the numeric model when it is empty. *)
Lemma cpuModelVendor_Ok :
  forall env w c0 rest, cpu_Info env = Ok (c0 :: rest) ->
    cpuModelVendor env w
    = (Returned (if String.eqb (ModelName c0) "" then Gopsutil.Model c0
                 else ModelName c0, VendorID c0), w).
Proof.
  intros env w c0 rest H. unfold cpuModelVendor. rewrite H.
  unfold bind, lift, index, ret; simpl.
  now destruct (String.eqb (ModelName c0) "").
Qed.

(** A failed cpu lookup is logged and gives two empty strings. *)
Lemma cpuModelVendor_Err :
  forall env w msg, cpu_Info env = Err msg ->
    cpuModelVendor env w
    = (Returned ("", ""),
       add_event (EvLogMshErr (NewErr ERROR_GET_CPU_INFO LVL_D "buildReq" msg)) w).
Proof. intros env w msg H. unfold cpuModelVendor. now rewrite H. Qed.

(** Unless the cpu lookup answers with an empty list, [buildApi2Req]
    returns a request; its fields are the inputs they are copied from, and
    a failed lookup leaves the documented default in its field. *)
Lemma buildApi2Req_returns :
  forall (env : Env) (preTerm : bool) (w : World),
    cpu_Info env <> Ok [] ->
    exists r w',
      buildApi2Req env preTerm w = (Returned r, w')
      /\ sgm_stats w' = sgm_stats w
      /\ Protv r = protv w
      /\ Msh r
         = mkApi2ReqMsh (cfg_Msh_ID (ConfigRuntime w)) (MshVersion w)
             (int_of_float64 (IntSize env) (int_indefinite env)
                (since_startTime_Seconds env))
             (cfg_Msh_AllowSuspend (ConfigRuntime w))
             (mkApi2ReqSgm (seconds (sgm_stats w)) (secondsHibe (sgm_stats w))
                (cpuUsage (sgm_stats w)) (memUsage (sgm_stats w))
                (playerSec (sgm_stats w)) preTerm)
      /\ Server r
         = mkApi2ReqServer (TermUpTime env) (cfg_Server_Version (ConfigRuntime w))
             (cfg_Server_Protocol (ConfigRuntime w))
      /\ Os (Machine r) = GOOS env
      /\ Arch (Machine r) = GOARCH env
      /\ Javav (Machine r) = config_Javav w
      /\ CoresMsh (Machine r) = NumCPU env
      /\ (forall msg, cpu_Info env = Err msg ->
            CpuModel (Machine r) = "" /\ CpuVendor (Machine r) = "")
      /\ (forall msg, cpu_Counts env true = Err msg -> CoresSys (Machine r) = -1)
      /\ (forall msg, mem_VirtualMemory env = Err msg -> Mem (Machine r) = -1).
Proof.
  intros env preTerm w Hne.
  unfold buildApi2Req, coresSys, memSys, cpuModelVendor.
  destruct (cpu_Info env) as [[|c0 rest]|m1]; [now contradiction Hne| |];
    destruct (cpu_Counts env true) as [cores|m2];
    destruct (mem_VirtualMemory env) as [memInfo|m3];
    unfold bind, read, ret, lift, index, LogMshErr, emit; simpl;
    try destruct (String.eqb (ModelName c0) ""); simpl;
    do 2 eexists; (split; [reflexivity|]); simpl;
    repeat split; intros; congruence.
Qed.

(** C5. The cpu lookup that succeeds with an empty list ([cpu.Info()]
    returning no entry and a nil error): the claim is that every
    combination of lookup outcomes gives a complete request; here
    [cpuInfo[0]] is out of range and [buildApi2Req] ends in a run-time
    panic, with no request. *)
Theorem buildApi2Req_empty_cpu_info :
  forall (env : Env) (preTerm : bool) (w : World),
    cpu_Info env = Ok [] ->
    buildApi2Req env preTerm w
    = (Panicked "runtime error: index out of range", w).
Proof.
  intros env preTerm w H.
  unfold buildApi2Req, cpuModelVendor. rewrite H. reflexivity.
Qed.

Lemma buildApi2Req_empty_cpu_info_witness :
  buildApi2Req (Examples.with_cpu_Info (Ok []) Examples.env0) false Examples.world0
  = (Panicked "runtime error: index out of range", Examples.world0).
Proof.
  apply (buildApi2Req_empty_cpu_info
           (Examples.with_cpu_Info (Ok []) Examples.env0) false Examples.world0).
  reflexivity.
Defined.

(** C6. The request of the claim's scenario, for any segment statistics
    and any [preTerm], on a host where [cpu.Info()] answers with no entry
    and a nil error: the claim is a request whose instance section carries
    the statistics, the flag, an uptime and the protocol version; the code
    reaches [cpuInfo[0]], panics, and returns no request at all, so
    nothing is embedded. *)
Theorem buildApi2Req_no_request_on_empty_cpu_info :
  forall (stats : SegmentStats) (preTerm : bool),
    fst (buildApi2Req (Examples.with_cpu_Info (Ok []) Examples.env0) preTerm
           (set_sgm_stats stats Examples.world0))
    = Panicked "runtime error: index out of range"
    /\ forall r : Api2Req,
         fst (buildApi2Req (Examples.with_cpu_Info (Ok []) Examples.env0) preTerm
                (set_sgm_stats stats Examples.world0))
         <> Returned r.
Proof.
  intros stats preTerm. split; [reflexivity | discriminate].
Qed.

(** Outside that answer of the cpu lookup, and with a clock that does not
    run backwards (the seconds since [msh.startTime] are not negative and
    fit an [int]), the request that [buildApi2Req] returns carries in its
    instance section the five statistics unchanged and the given
    [preTerm], an uptime that is not negative, and in [Protv] the
    package's protocol version. *)
Theorem buildApi2Req_instance_section :
  forall (env : Env) (preTerm : bool) (w : World),
    cpu_Info env <> Ok [] ->
    PrimFloat.leb 0%float (since_startTime_Seconds env) = true ->
    fits_int (IntSize env) (since_startTime_Seconds env) = true ->
    exists r w',
      buildApi2Req env preTerm w = (Returned r, w')
      /\ Seconds (Sgm (Msh r)) = seconds (sgm_stats w)
      /\ SecondsHibe (Sgm (Msh r)) = secondsHibe (sgm_stats w)
      /\ CpuUsage (Sgm (Msh r)) = cpuUsage (sgm_stats w)
      /\ MemUsage (Sgm (Msh r)) = memUsage (sgm_stats w)
      /\ PlayerSec (Sgm (Msh r)) = playerSec (sgm_stats w)
      /\ PreTerm (Sgm (Msh r)) = preTerm
      /\ 0 <= Uptime (Msh r)
      /\ Protv r = protv w.
Proof.
  intros env preTerm w Hne Hle Hfit.
  destruct (buildApi2Req_returns env preTerm w Hne)
    as (r & w' & Hrun & _ & Hprotv & Hmsh & _).
  exists r, w'. split; [exact Hrun|].
  rewrite Hmsh; simpl.
  repeat split; try assumption.
  now apply int_of_float64_nonneg.
Qed.

Lemma buildApi2Req_instance_section_witness :
  exists r w',
    buildApi2Req Examples.env0 false Examples.world0 = (Returned r, w')
    /\ Seconds (Sgm (Msh r)) = 120
    /\ SecondsHibe (Sgm (Msh r)) = 30
    /\ CpuUsage (Sgm (Msh r)) = 12.5%float
    /\ MemUsage (Sgm (Msh r)) = 8%float
    /\ PlayerSec (Sgm (Msh r)) = 90
    /\ PreTerm (Sgm (Msh r)) = false
    /\ 0 <= Uptime (Msh r)
    /\ Protv r = 2.
Proof.
  apply (buildApi2Req_instance_section Examples.env0 false Examples.world0).
  - discriminate.
  - reflexivity.
  - reflexivity.
Defined.

Example buildApi2Req_env0 :
  fst (buildApi2Req Examples.env0 false Examples.world0)
  = Returned
      (mkApi2Req 2
         (mkApi2ReqMsh "0123456789abcdef0123456789abcdef01234567" "v2.4.9" 3600
            true (mkApi2ReqSgm 120 30 12.5%float 8%float 90 false))
         (mkApi2ReqMachine "linux" "amd64" "17.0.4" "158" "GenuineIntel"
            8 16 17179869184)
         (mkApi2ReqServer 1800 "1.19.2" 760)).
Proof. vm_compute. reflexivity. Qed.

(* ================================================================== *)
(** ** Traces *)

Lemma add_event_as_events :
  forall e w, add_event e w = add_events [e] w.
Proof. reflexivity. Qed.

Lemma add_events_add_events :
  forall es1 es2 w,
    add_events es2 (add_events es1 w) = add_events (es1 ++ es2) w.
Proof. intros. unfold add_events; simpl. now rewrite <- app_assoc. Qed.

(** Bring every world of the goal to the form [add_events es w]. *)
Ltac norm_events :=
  rewrite ?add_event_as_events; rewrite ?add_events_add_events.

(* ================================================================== *)
(** ** The publish on ReqSent *)

(** A bare [ReqSent <- true] parks the goroutine when no receiver waits
    and no slot is free. *)
Lemma plain_send_blocks :
  forall (T : Type) (c : chan T) (v : T),
    recvq c = O -> (cap c <= List.length (buf c))%nat ->
    select_send false c v = (Blocked, c).
Proof.
  intros T c v Hq Hfull. unfold select_send, try_send. rewrite Hq.
  destruct (Nat.ltb_spec (List.length (buf c)) (cap c)); [lia|reflexivity].
Qed.

(** With a [default] branch the select returns in every state. *)
Lemma select_send_default_returns :
  forall (T : Type) (c : chan T) (v : T),
    exists sent c', select_send true c v = (Returned sent, c').
Proof.
  intros T c v. unfold select_send.
  destruct (try_send c v); eauto.
Qed.

Lemma publishReqSent_run :
  forall w, exists sent c',
    publishReqSent w
    = (Returned tt, add_event (EvReqSent sent) (set_ReqSent c' w)).
Proof.
  intros w. unfold publishReqSent.
  destruct (select_send_default_returns bool (ReqSent w) true) as (sent & c' & ->).
  eauto.
Qed.

(** C8. The publish never blocks: in every state of [ReqSent] (whether
    or not a consumer is ready) the deferred [select] returns at once.
    Either the send case runs and the notification is delivered (handed to
    a waiting receiver, or put in the free slot for the consumer), or, with
    no receiver waiting and no free slot, the [default] branch runs: the
    notification is dropped and the channel is unchanged. *)
Theorem publishReqSent_never_blocks :
  forall (w : World),
    exists (sent : bool) (w' : World),
      publishReqSent w = (Returned tt, w')
      /\ trace w' = trace w ++ [EvReqSent sent]
      /\ sgm_stats w' = sgm_stats w
      /\ match recvq (ReqSent w) with
         | S n =>
             sent = true
             /\ ReqSent w' = mkChan (cap (ReqSent w)) (buf (ReqSent w)) n
         | O =>
             if Nat.ltb (List.length (buf (ReqSent w))) (cap (ReqSent w))
             then sent = true
                  /\ ReqSent w'
                     = mkChan (cap (ReqSent w)) (buf (ReqSent w) ++ [true]) O
             else sent = false /\ ReqSent w' = ReqSent w
         end.
Proof.
  intros w. unfold publishReqSent, select_send, try_send.
  destruct (recvq (ReqSent w)) as [|n].
  - destruct (Nat.ltb (List.length (buf (ReqSent w))) (cap (ReqSent w))).
    + exists true. eexists. repeat split.
    + exists false. eexists. repeat split.
  - exists true. eexists. repeat split.
Qed.

Example publishReqSent_slot_full :
  publishReqSent (set_ReqSent (mkChan 1 [true] 0) Examples.world0)
  = (Returned tt,
     add_event (EvReqSent false)
       (set_ReqSent (mkChan 1 [true] 0) Examples.world0)).
Proof. reflexivity. Qed.

Example publishReqSent_unbuffered_no_receiver :
  publishReqSent (set_ReqSent (mkChan 0 [] 0) Examples.world0)
  = (Returned tt,
     add_event (EvReqSent false) (set_ReqSent (mkChan 0 [] 0) Examples.world0)).
Proof. reflexivity. Qed.

(* ================================================================== *)
(** ** The exchange *)

(** What the statements after the [defer] do: they return, they add
    events to the trace and change nothing else, they do not touch
    [ReqSent], and the http exchange happens on the paths that reach it. *)
Lemma sendApi2Req_body_run :
  forall (env : Env) (url : string) (api2req : Api2Req) (w : World),
    exists (r : option Response * option Error) (pre : list Event),
      sendApi2Req_body env url api2req w = (Returned r, add_events pre w)
      /\ filter isReqSent pre = []
      /\ match json_Marshal env api2req with
         | Err msg =>
             r = (None, Some (NewErr ERROR_VERSION LVL_D "sendApi2Req" msg))
             /\ filter isHttpDo pre = []
         | Ok reqByte =>
             match http_NewRequest env MethodPost url reqByte with
             | Err msg =>
                 r = (None, Some (NewErr ERROR_VERSION LVL_D "sendApi2Req" msg))
                 /\ filter isHttpDo pre = []
             | Ok _ =>
                 exists req,
                   filter isHttpDo pre = [EvHttpDo (mkClient 4) req]
                   /\ r = match client_Do env (mkClient 4) req with
                          | Err msg =>
                              (None,
                               Some (NewErr ERROR_VERSION LVL_D "sendApi2Req" msg))
                          | Ok res => (Some res, None)
                          end
             end
         end.
Proof.
  intros env url api2req w.
  unfold sendApi2Req_body.
  destruct (json_Marshal env api2req) as [reqByte|m1].
  - destruct (http_NewRequest env MethodPost url reqByte) as [req|m2].
    + cbv beta iota delta [bind Logln emit read ret].
      repeat match goal with
             | |- context [MshVersion (add_event ?e ?x)] =>
                 change (MshVersion (add_event e x)) with (MshVersion x)
             end.
      match goal with
      | |- context [client_Do env ?c ?rq] =>
          destruct (client_Do env c rq) as [res|m3] eqn:Edo
      end;
        norm_events; do 2 eexists; (split; [reflexivity|]);
        (split; [reflexivity|]);
        eexists; (split; [reflexivity|]); rewrite Edo; reflexivity.
    + cbv beta iota delta [bind Logln emit read ret].
      norm_events. do 2 eexists. repeat split.
  - cbv beta iota delta [bind Logln emit read ret].
    norm_events. do 2 eexists. repeat split.
Qed.

(** C4. Every run of [sendApi2Req] returns, on each of its exit paths
    (marshalling fails, building the request fails, the exchange fails,
    the exchange succeeds), and on each of them the notification is
    published, once and as the last effect: the deferred [select] is run
    on [ReqSent] as the channel was left by the body, so the value [true]
    is handed to a waiting receiver or stored in the free slot (or dropped
    when there is neither), and the channel after the call is the one that
    [select] leaves. The one http exchange, failed or not, is in the trace
    before the publish; on the two early paths there is none. *)
Theorem sendApi2Req_publishes_last :
  forall (env : Env) (url : string) (api2req : Api2Req) (w : World),
    exists (r : option Response * option Error) (pre : list Event)
           (sent : bool) (w' : World),
      sendApi2Req env url api2req w = (Returned r, w')
      /\ trace w' = trace w ++ pre ++ [EvReqSent sent]
      /\ filter isReqSent pre = []
      /\ select_send true (ReqSent w) true = (Returned sent, ReqSent w')
      /\ match recvq (ReqSent w) with
         | S n =>
             sent = true
             /\ ReqSent w' = mkChan (cap (ReqSent w)) (buf (ReqSent w)) n
         | O =>
             if Nat.ltb (List.length (buf (ReqSent w))) (cap (ReqSent w))
             then sent = true
                  /\ ReqSent w'
                     = mkChan (cap (ReqSent w)) (buf (ReqSent w) ++ [true]) O
             else sent = false /\ ReqSent w' = ReqSent w
         end
      /\ match json_Marshal env api2req with
         | Err msg =>
             r = (None, Some (NewErr ERROR_VERSION LVL_D "sendApi2Req" msg))
             /\ filter isHttpDo pre = []
         | Ok reqByte =>
             match http_NewRequest env MethodPost url reqByte with
             | Err msg =>
                 r = (None, Some (NewErr ERROR_VERSION LVL_D "sendApi2Req" msg))
                 /\ filter isHttpDo pre = []
             | Ok _ =>
                 exists req,
                   filter isHttpDo pre = [EvHttpDo (mkClient 4) req]
                   /\ r = match client_Do env (mkClient 4) req with
                          | Err msg =>
                              (None,
                               Some (NewErr ERROR_VERSION LVL_D "sendApi2Req" msg))
                          | Ok res => (Some res, None)
                          end
             end
         end.
Proof.
  intros env url api2req w.
  destruct (sendApi2Req_body_run env url api2req w) as (r & pre & Hbody & Hpre & Hr).
  destruct (select_send_default_returns bool (ReqSent w) true)
    as (sent & c' & Hsel).
  exists r, pre, sent,
    (add_event (EvReqSent sent) (set_ReqSent c' (add_events pre w))).
  split; [|split; [|split; [exact Hpre | split; [exact Hsel | split; [|exact Hr]]]]].
  - unfold sendApi2Req, defer. rewrite Hbody. unfold publishReqSent.
    change (ReqSent (add_events pre w)) with (ReqSent w).
    now rewrite Hsel.
  - simpl. now rewrite <- app_assoc.
  - change (ReqSent (add_event (EvReqSent sent)
                       (set_ReqSent c' (add_events pre w)))) with c'.
    unfold select_send, try_send in Hsel.
    destruct (recvq (ReqSent w)) as [|n].
    + destruct (Nat.ltb (List.length (buf (ReqSent w))) (cap (ReqSent w)));
        injection Hsel as <- <-; split; reflexivity.
    + injection Hsel as <- <-. split; reflexivity.
Qed.

Example sendApi2Req_marshal_fails :
  forall env url api2req msg,
    json_Marshal env api2req = Err msg ->
    sendApi2Req env url api2req Examples.world0
    = (Returned (None, Some (NewErr ERROR_VERSION LVL_D "sendApi2Req" msg)),
       mkWorld 2 "v2.4.9" (ConfigRuntime Examples.world0) "17.0.4"
         Examples.stats0 (mkChan 1 [true] 0)
         [EvLogln LVL_D "sendApi2Req: sending request..." []; EvReqSent true]).
Proof.
  intros env url api2req msg H.
  unfold sendApi2Req, defer, sendApi2Req_body. rewrite H. reflexivity.
Qed.

(* ================================================================== *)
(** ** The response reader *)

Section Reader.

Variable Api2Res : Type.
Variable json_Unmarshal : string -> option Api2Res * option string.

(** What [readApi2Res] returns for a body and a decoder. *)
Lemma readApi2Res_body_run :
  forall (res : Response) (w : World),
    exists (r : option Api2Res * option Error) (pre : list Event),
      readApi2Res_body json_Unmarshal res w = (Returned r, add_events pre w)
      /\ filter isClose pre = []
      /\ r = match body_data (Body res) with
             | Err msg =>
                 (None, Some (NewErr ERROR_VERSION LVL_D "readApi2Res" msg))
             | Ok resByte =>
                 match json_Unmarshal resByte with
                 | (_, Some msg) =>
                     (None, Some (NewErr ERROR_VERSION LVL_D "readApi2Res" msg))
                 | (resJson, None) => (resJson, None)
                 end
             end.
Proof.
  intros res w. unfold readApi2Res_body, ioutil_ReadAll.
  cbv beta iota delta [bind Logln emit read ret].
  destruct (body_data (Body res)) as [resByte|m1].
  - destruct (json_Unmarshal resByte) as [resJson [m2|]];
      norm_events; do 2 eexists; repeat split.
  - norm_events. do 2 eexists. repeat split.
Qed.

End Reader.

(** C9. A response whose body is the JSON text null: the claim is that
    [readApi2Res] returns a parsed response or an error; the read succeeds,
    [json.Unmarshal] leaves the pointer [resJson] nil and returns a nil
    error, and [readApi2Res] returns that nil pointer with a nil error:
    neither a response nor an error. *)
Theorem readApi2Res_null_body :
  forall (Api2Res : Type)
         (json_Unmarshal : string -> option Api2Res * option string)
         (id : nat) (w : World),
    json_Unmarshal "null" = (None, None) ->
    fst (readApi2Res json_Unmarshal (mkResponse (mkReadCloser id (Ok "null"))) w)
    = Returned (None, None).
Proof.
  intros Api2Res json_Unmarshal id w H.
  unfold readApi2Res, defer, readApi2Res_body, ioutil_ReadAll, Body_Close.
  cbv beta iota delta [bind Logln emit read ret].
  simpl. now rewrite H.
Qed.

Lemma readApi2Res_null_body_witness :
  fst (readApi2Res
         (fun b => if String.eqb b "null" then (None, None) else (Some b, None))
         (mkResponse (mkReadCloser 3 (Ok "null"))) Examples.world0)
  = Returned (None, None).
Proof.
  apply (readApi2Res_null_body string
           (fun b => if String.eqb b "null" then (None, None) else (Some b, None))
           3%nat Examples.world0).
  reflexivity.
Defined.

(** On the other paths [readApi2Res] keeps to it: when reading the body
    fails, or when decoding fails (whatever the decoder left behind), the
    response is nil and the error is not; otherwise the result is what the
    decoder produced from the whole body, with a nil error. On each path
    the body is closed, once, as the last effect. *)
Theorem readApi2Res_all_or_nothing :
  forall (Api2Res : Type)
         (json_Unmarshal : string -> option Api2Res * option string)
         (res : Response) (w : World),
    exists (r : option Api2Res * option Error) (pre : list Event) (w' : World),
      readApi2Res json_Unmarshal res w = (Returned r, w')
      /\ trace w' = trace w ++ pre ++ [EvClose (body_id (Body res))]
      /\ filter isClose pre = []
      /\ r = match body_data (Body res) with
             | Err msg =>
                 (None, Some (NewErr ERROR_VERSION LVL_D "readApi2Res" msg))
             | Ok resByte =>
                 match json_Unmarshal resByte with
                 | (_, Some msg) =>
                     (None, Some (NewErr ERROR_VERSION LVL_D "readApi2Res" msg))
                 | (resJson, None) => (resJson, None)
                 end
             end
      /\ (fst r = None \/ snd r = None).
Proof.
  intros Api2Res json_Unmarshal res w.
  destruct (readApi2Res_body_run Api2Res json_Unmarshal res w)
    as (r & pre & Hbody & Hpre & Hr).
  exists r, pre. eexists.
  split; [|split; [|split; [exact Hpre | split; [exact Hr|]]]].
  - unfold readApi2Res, defer. rewrite Hbody. unfold Body_Close, emit.
    reflexivity.
  - simpl. now rewrite <- app_assoc.
  - rewrite Hr. destruct (body_data (Body res)) as [resByte|m1]; [|now left].
    destruct (json_Unmarshal resByte) as [resJson [m2|]]; [now left|now right].
Qed.

Example readApi2Res_partial_decode :
  fst (readApi2Res (fun _ => (Some 7%nat, Some "json: cannot unmarshal"))
         (mkResponse (mkReadCloser 3 (Ok "{}"))) Examples.world0)
  = Returned (None,
              Some (NewErr ERROR_VERSION LVL_D "readApi2Res"
                           "json: cannot unmarshal")).
Proof. reflexivity. Qed.

(* ================================================================== *)
(** ** Further properties of the tree walk *)

(** Induction on an observed tree, with the statement available for
    every child of a node that answered with a list. *)
Lemma ProcView_induction :
  forall P : ProcView -> Prop,
    (forall p msg, P (View p (Err msg))) ->
    (forall p children, Forall P children -> P (View p (Ok children))) ->
    forall v, P v.
Proof.
  intros P HErr HOk. fix IH 1. intros [p [children|msg]].
  - apply HOk. induction children as [|c cs IHcs]; constructor.
    + apply IH.
    + exact IHcs.
  - apply HErr.
Qed.

Lemma flat_map_ext_Forall :
  forall (A B : Type) (f g : A -> list B) (l : list A),
    Forall (fun a => f a = g a) l -> flat_map f l = flat_map g l.
Proof.
  intros A B f g l H; induction H as [|a l Ha _ IH]; simpl.
  - reflexivity.
  - now rewrite Ha, IH.
Qed.

(** X1. When no enumeration fails, the walk is complete: it lists every
    process of the tree once, each parent before its children, children
    in the order the operating system reports them. *)
Theorem treeProc_complete :
  forall v : ProcView, enumerates v = true -> treeProc v = handles v.
Proof.
  induction v as [p msg|p children IH] using ProcView_induction; intros He.
  - discriminate He.
  - rewrite treeProc_Ok. simpl. f_equal.
    apply flat_map_ext_Forall.
    simpl in He. rewrite forallb_forall in He.
    rewrite Forall_forall in IH |- *.
    intros c Hc. apply IH; [exact Hc | apply He, Hc].
Qed.

Lemma treeProc_complete_witness :
  treeProc Examples.tree_plain
  = [mkProcess 100; mkProcess 101; mkProcess 102; mkProcess 103].
Proof.
  apply (treeProc_complete Examples.tree_plain). reflexivity.
Defined.

(** X2. A child whose enumeration fails takes exactly one place in the
    walk of its parent (its own handle, or the sentinel for the
    "no children" error), and the walks of the siblings before and after
    it are all there, unchanged. *)
Theorem treeProc_failed_child_isolated :
  forall (p c : Process) (msg : string) (before after : list ProcView),
    treeProc (View p (Ok (before ++ View c (Err msg) :: after)))
    = p :: flat_map treeProc before
        ++ [if String.eqb msg "process does not have children"
            then sentinel else c]
        ++ flat_map treeProc after.
Proof.
  intros p c msg before after.
  rewrite treeProc_Ok, flat_map_app. simpl flat_map.
  do 2 f_equal.
  destruct (String.eqb msg "process does not have children"); reflexivity.
Qed.

(** X3. The walk invents no process: each handle it returns is a handle
    of the observed tree or the sentinel. *)
Theorem treeProc_handles_of_tree :
  forall (v : ProcView) (h : Process),
    In h (treeProc v) -> h = sentinel \/ In h (handles v).
Proof.
  induction v as [p msg|p children IH] using ProcView_induction; intros h Hin.
  - simpl in Hin.
    destruct (String.eqb msg "process does not have children");
      simpl in Hin; destruct Hin as [<-|[]]; [now left | right; now left].
  - rewrite treeProc_Ok in Hin. simpl in Hin |- *.
    destruct Hin as [<-|Hin]; [right; now left|].
    apply in_flat_map in Hin. destruct Hin as (c & Hc & Hh).
    rewrite Forall_forall in IH.
    destruct (IH c Hc h Hh) as [->|Hh']; [now left|].
    right. right. apply in_flat_map. eauto.
Qed.

Lemma treeProc_handles_of_tree_witness :
  mkProcess 103 = sentinel \/ In (mkProcess 103) (handles Examples.tree_vanished).
Proof.
  apply (treeProc_handles_of_tree Examples.tree_vanished (mkProcess 103)).
  simpl. tauto.
Defined.

Lemma linuxTree_walk_sentinel :
  forall v : ProcView, linuxTree v = true -> In sentinel (treeProc v).
Proof.
  induction v as [p msg|p children IH] using ProcView_induction; intros Hl.
  - simpl in Hl |- *. rewrite Hl. simpl. now left.
  - rewrite treeProc_Ok. simpl in Hl. apply andb_prop in Hl.
    destruct Hl as [Hne Hall].
    destruct children as [|c cs]; [discriminate Hne|].
    right. simpl. apply in_or_app. left.
    inversion IH as [|? ? Hc _]; subst.
    apply Hc. simpl in Hall. now apply andb_prop in Hall.
Qed.

(** X4. On a tree as linux shows it, where a process without children
    answers with the "no children" error, the walk always contains the
    sentinel. *)
Theorem treeProc_linux_has_sentinel :
  forall v : ProcView, linuxTree v = true -> In sentinel (treeProc v).
Proof. exact linuxTree_walk_sentinel. Qed.

Lemma treeProc_linux_has_sentinel_witness :
  In sentinel (treeProc Examples.tree_linux).
Proof.
  apply (treeProc_linux_has_sentinel Examples.tree_linux). reflexivity.
Defined.

(** X5. On linux the sampler never gets past the sentinel: when the tree
    of msh is as linux shows it and the cpu query on pid -1 fails,
    [getMshTreeStats] returns the stored pair, whatever the other
    processes answer. *)
Theorem getMshTreeStats_linux_falls_back :
  forall (env : Env) (w : World) (mshProc : ProcView) (msg : string),
    NewProcess env (wrap_int32 (Getpid env)) = Ok mshProc ->
    linuxTree mshProc = true ->
    CPUPercent env sentinel = Err msg ->
    getMshTreeStats env w
    = (Returned (cpuUsage (sgm_stats w), memUsage (sgm_stats w)), w).
Proof.
  intros env w mshProc msg Hroot Hl Hq.
  unfold getMshTreeStats. rewrite Hroot.
  apply sampleLoop_fails, Exists_exists.
  exists sentinel. split.
  - now apply linuxTree_walk_sentinel.
  - left. eauto.
Qed.

Lemma getMshTreeStats_linux_falls_back_witness :
  getMshTreeStats (Examples.with_tree Examples.tree_linux Examples.env0)
                  Examples.world0
  = (Returned (12.5%float, 8%float), Examples.world0).
Proof.
  apply (getMshTreeStats_linux_falls_back
           (Examples.with_tree Examples.tree_linux Examples.env0)
           Examples.world0 Examples.tree_linux "no such process");
    reflexivity.
Defined.

(* ================================================================== *)
(** ** Further properties of the request builder *)

Lemma wrap_int_in_range :
  forall bits z, 0 < bits -> 0 <= z < 2 ^ (bits - 1) -> wrap_int bits z = z.
Proof.
  intros bits z Hb Hz. unfold wrap_int.
  assert (E : 2 ^ bits = 2 * 2 ^ (bits - 1)).
  { replace bits with (Z.succ (bits - 1)) at 1 by lia.
    apply Z.pow_succ_r. lia. }
  rewrite Z.mod_small; lia.
Qed.

Lemma add_events_nil : forall w, add_events [] w = w.
Proof. intros []. unfold add_events; simpl. now rewrite app_nil_r. Qed.

(** The run of [buildApi2Req] outside the empty cpu answer: the machine
    section, and the world it leaves. *)
Lemma buildApi2Req_machine_run :
  forall (env : Env) (preTerm : bool) (w : World),
    cpu_Info env <> Ok [] ->
    exists r,
      buildApi2Req env preTerm w = (Returned r, add_events (diagnostics env) w)
      /\ (CpuModel (Machine r), CpuVendor (Machine r))
         = match cpu_Info env with
           | Ok (c0 :: _) =>
               (if String.eqb (ModelName c0) "" then Gopsutil.Model c0
                else ModelName c0, VendorID c0)
           | _ => ("", "")
           end
      /\ CoresMsh (Machine r) = NumCPU env
      /\ CoresSys (Machine r)
         = match cpu_Counts env true with Ok cores => cores | Err _ => -1 end
      /\ Mem (Machine r)
         = match mem_VirtualMemory env with
           | Ok memInfo => wrap_int (IntSize env) (Total memInfo)
           | Err _ => -1
           end.
Proof.
  intros env preTerm w Hne.
  unfold buildApi2Req, coresSys, memSys, cpuModelVendor, diagnostics.
  destruct (cpu_Info env) as [[|c0 rest]|m1]; [now contradiction Hne| |];
    destruct (cpu_Counts env true) as [cores|m2];
    destruct (mem_VirtualMemory env) as [memInfo|m3];
    cbv beta iota delta [bind read ret lift index LogMshErr emit nth_error fst snd];
    try destruct (String.eqb (ModelName c0) "");
    norm_events; simpl app; rewrite ?add_events_nil; eexists;
    (split; [reflexivity|]);
    repeat split.
Qed.

(** X6. The three host lookups of [buildApi2Req] are independent: the
    cpu model is the model name of the first cpu entry, or its numeric
    model when the name is empty, and the vendor that entry's vendor id;
    the system cores are the looked-up count and the memory is the total
    converted to the [int] of the target (its low bits); and a lookup that
    fails leaves the empty string or -1 in its own fields only. *)
Theorem buildApi2Req_machine_section :
  forall (env : Env) (preTerm : bool) (w : World),
    cpu_Info env <> Ok [] ->
    exists r w',
      buildApi2Req env preTerm w = (Returned r, w')
      /\ (CpuModel (Machine r), CpuVendor (Machine r))
         = match cpu_Info env with
           | Ok (c0 :: _) =>
               (if String.eqb (ModelName c0) "" then Gopsutil.Model c0
                else ModelName c0, VendorID c0)
           | _ => ("", "")
           end
      /\ CoresMsh (Machine r) = NumCPU env
      /\ CoresSys (Machine r)
         = match cpu_Counts env true with Ok cores => cores | Err _ => -1 end
      /\ Mem (Machine r)
         = match mem_VirtualMemory env with
           | Ok memInfo => wrap_int (IntSize env) (Total memInfo)
           | Err _ => -1
           end.
Proof.
  intros env preTerm w Hne.
  destruct (buildApi2Req_machine_run env preTerm w Hne) as (r & Hrun & H).
  exists r. eexists. split; [exact Hrun | exact H].
Qed.

Lemma buildApi2Req_machine_section_witness :
  exists r w',
    buildApi2Req Examples.env0 true Examples.world0 = (Returned r, w')
    /\ (CpuModel (Machine r), CpuVendor (Machine r)) = ("158", "GenuineIntel")
    /\ CoresMsh (Machine r) = 8
    /\ CoresSys (Machine r) = 16
    /\ Mem (Machine r) = 17179869184.
Proof.
  apply (buildApi2Req_machine_section Examples.env0 true Examples.world0).
  discriminate.
Defined.

(** X7. Building a request changes nothing but the log: the trace grows
    by one diagnostic for each lookup that failed, in the order cpu info,
    system cores, memory, each carrying the lookup's error text; a run
    where every lookup succeeds leaves the world as it was. *)
Theorem buildApi2Req_logs_failed_lookups :
  forall (env : Env) (preTerm : bool) (w : World),
    cpu_Info env <> Ok [] ->
    snd (buildApi2Req env preTerm w) = add_events (diagnostics env) w.
Proof.
  intros env preTerm w Hne.
  destruct (buildApi2Req_machine_run env preTerm w Hne) as (r & Hrun & _).
  now rewrite Hrun.
Qed.

Lemma buildApi2Req_logs_failed_lookups_witness :
  snd (buildApi2Req (Examples.with_cpu_Info (Err "no cpuinfo") Examples.env0)
         false Examples.world0)
  = add_events
      [EvLogMshErr (NewErr ERROR_GET_CPU_INFO LVL_D "buildReq" "no cpuinfo")]
      Examples.world0.
Proof.
  apply (buildApi2Req_logs_failed_lookups
           (Examples.with_cpu_Info (Err "no cpuinfo") Examples.env0)
           false Examples.world0).
  discriminate.
Defined.

(** X8. The memory field is the total memory of the host whenever that
    total fits the [int] of the target, that is, is below 2^(n-1) bytes
    for an [int] of n bits (2^31 on a 32-bit target, 2^63 on a 64-bit
    one): the conversion from [uint64] to [int] loses nothing there. *)
Theorem buildApi2Req_mem_exact :
  forall (env : Env) (preTerm : bool) (w : World) (memInfo : VirtualMemoryStat),
    cpu_Info env <> Ok [] ->
    mem_VirtualMemory env = Ok memInfo ->
    0 < IntSize env ->
    0 <= Total memInfo < 2 ^ (IntSize env - 1) ->
    exists r w',
      buildApi2Req env preTerm w = (Returned r, w')
      /\ Mem (Machine r) = Total memInfo.
Proof.
  intros env preTerm w memInfo Hne Hmem Hbits Hrange.
  destruct (buildApi2Req_machine_run env preTerm w Hne)
    as (r & Hrun & _ & _ & _ & HMem).
  exists r. eexists. split; [exact Hrun|].
  rewrite HMem, Hmem. now apply wrap_int_in_range.
Qed.

Lemma buildApi2Req_mem_exact_witness :
  exists r w',
    buildApi2Req Examples.env0 false Examples.world0 = (Returned r, w')
    /\ Mem (Machine r) = 17179869184.
Proof.
  apply (buildApi2Req_mem_exact Examples.env0 false Examples.world0
           (mkVirtualMemoryStat 17179869184)).
  - discriminate.
  - reflexivity.
  - simpl. lia.
  - simpl. lia.
Defined.

(** On a 386 build a host with 3 GiB reports a negative memory: the
    conversion keeps the low 32 bits. *)
Example buildApi2Req_mem_386 :
  match fst (buildApi2Req (on386 3221225472 Examples.env0) false Examples.world0)
  with
  | Returned r => Mem (Machine r) = -1073741824
  | _ => False
  end.
Proof. vm_compute. reflexivity. Qed.

(* ================================================================== *)
(** ** Further properties of the exchange *)

(** A run of [sendApi2Req]: the events of its body, then the select on
    [ReqSent] as the channel was when the call started. *)
Lemma sendApi2Req_run :
  forall (env : Env) (url : string) (api2req : Api2Req) (w : World),
    exists r pre sent c',
      sendApi2Req env url api2req w
      = (Returned r,
         add_event (EvReqSent sent) (set_ReqSent c' (add_events pre w)))
      /\ select_send true (ReqSent w) true = (Returned sent, c')
      /\ sendApi2Req_body env url api2req w = (Returned r, add_events pre w).
Proof.
  intros env url api2req w.
  destruct (sendApi2Req_body_run env url api2req w) as (r & pre & Hbody & _).
  destruct (select_send_default_returns bool (ReqSent w) true)
    as (sent & c' & Hsel).
  exists r, pre, sent, c'. split; [|split; assumption].
  unfold sendApi2Req, defer. rewrite Hbody.
  unfold publishReqSent.
  change (ReqSent (add_events pre w)) with (ReqSent w).
  now rewrite Hsel.
Qed.

(** X9. When the request marshals and the url is accepted, exactly one
    http exchange happens, with a 4 second timeout: a POST to the url whose
    body is the marshalled request and whose headers are User-Agent
    "msh/<version> (<os>) <arch>" and Content-Type "application/json". The
    outgoing bytes are logged before the exchange and the publish on
    [ReqSent] follows it. *)
Theorem sendApi2Req_wire_request :
  forall (env : Env) (url : string) (api2req : Api2Req) (w : World)
         (reqByte : string),
    json_Marshal env api2req = Ok reqByte ->
    http_NewRequest_error env "POST" url = None ->
    exists sent,
      trace (snd (sendApi2Req env url api2req w))
      = trace w
        ++ [EvLogln LVL_D "sendApi2Req: sending request..." [];
            EvLogln LVL_E "%smsh --> mshc%s:%v"
                    [COLOR_PURPLE; COLOR_RESET; ArgString reqByte];
            EvHttpDo (mkClient 4) (wireRequest env w url reqByte);
            EvReqSent sent].
Proof.
  intros env url api2req w reqByte Hm Hu.
  destruct (select_send_default_returns bool (ReqSent w) true)
    as (sent & c' & Hsel).
  exists sent.
  unfold sendApi2Req, defer, sendApi2Req_body, http_NewRequest, MethodPost.
  rewrite Hm, Hu.
  cbv beta iota delta [bind Logln emit read ret].
  match goal with
  | |- context [client_Do env ?c ?rq] => destruct (client_Do env c rq)
  end;
    unfold publishReqSent;
    match goal with
    | |- context [select_send true ?c true] =>
        change c with (ReqSent w); rewrite Hsel
    end;
    simpl; rewrite <- !app_assoc; reflexivity.
Qed.

Lemma sendApi2Req_wire_request_witness :
  exists sent,
    trace (snd (sendApi2Req Examples.env0 "https://api.example/v2" 
                  (mkApi2Req 2
                     (mkApi2ReqMsh "id" "v2.4.9" 1 true
                        (mkApi2ReqSgm 120 30 12.5%float 8%float 90 false))
                     (mkApi2ReqMachine "linux" "amd64" "17" "" "" 8 16 1)
                     (mkApi2ReqServer 0 "1.19.2" 760))
                  Examples.world0))
    = trace Examples.world0
      ++ [EvLogln LVL_D "sendApi2Req: sending request..." [];
          EvLogln LVL_E "%smsh --> mshc%s:%v"
                  [COLOR_PURPLE; COLOR_RESET; ArgString "{}"];
          EvHttpDo (mkClient 4)
            (mkRequest "POST" "https://api.example/v2"
               [("User-Agent", "msh/v2.4.9 (linux) amd64");
                ("Content-Type", "application/json")] "{}");
          EvReqSent sent].
Proof.
  apply (sendApi2Req_wire_request Examples.env0 "https://api.example/v2"
           _ Examples.world0 "{}"); reflexivity.
Defined.

(** X10. [sendApi2Req] returns a response or an error, never both and
    never neither; every error it returns has code ERROR_VERSION, level
    LVL_D and origin "sendApi2Req", whichever step failed. *)
Theorem sendApi2Req_response_xor_error :
  forall (env : Env) (url : string) (api2req : Api2Req) (w : World),
    (exists res, fst (sendApi2Req env url api2req w) = Returned (Some res, None))
    \/ (exists msg,
          fst (sendApi2Req env url api2req w)
          = Returned (None, Some (NewErr ERROR_VERSION LVL_D "sendApi2Req" msg))).
Proof.
  intros env url api2req w.
  destruct (sendApi2Req_body_run env url api2req w) as (r' & pre' & Hbody & _ & Hr).
  destruct (sendApi2Req_run env url api2req w)
    as (r2 & pre2 & sent2 & c2 & Hrun2 & _ & Hbody2).
  rewrite Hbody in Hbody2. injection Hbody2 as <- _.
  rewrite Hrun2. simpl.
  destruct (json_Marshal env api2req) as [reqByte|m1].
  - destruct (http_NewRequest env MethodPost url reqByte) as [req|m2].
    + destruct Hr as (rq & _ & ->).
      destruct (client_Do env (mkClient 4) rq); [left|right]; eauto.
    + destruct Hr as [-> _]. right; eauto.
  - destruct Hr as [-> _]. right; eauto.
Qed.

(** X11. At most one notification is pending: on a single-slot [ReqSent]
    that is empty and has no receiver waiting, the first of two calls
    stores its notification and the second drops its own; the slot holds
    one value afterwards. *)
Theorem sendApi2Req_twice_one_pending :
  forall (env : Env) (url1 url2 : string) (req1 req2 : Api2Req) (w : World),
    ReqSent w = mkChan 1 [] 0 ->
    exists r w',
      bind (sendApi2Req env url1 req1) (fun _ => sendApi2Req env url2 req2) w
      = (Returned r, w')
      /\ ReqSent w' = mkChan 1 [true] 0
      /\ exists post,
           trace w' = trace w ++ post
           /\ filter isReqSent post = [EvReqSent true; EvReqSent false].
Proof.
  intros env url1 url2 req1 req2 w Hc.
  destruct (sendApi2Req_run env url1 req1 w)
    as (r1 & pre1 & sent1 & c1 & Hrun1 & Hsel1 & Hb1).
  destruct (sendApi2Req_body_run env url1 req1 w) as (r1' & pre1' & Hb1' & Hf1 & _).
  rewrite Hb1 in Hb1'. injection Hb1' as _ Hw1.
  rewrite Hc in Hsel1. injection Hsel1 as <- <-.
  set (w1 := add_event (EvReqSent true)
               (set_ReqSent (mkChan 1 ([] ++ [true]) 0) (add_events pre1 w))) in *.
  destruct (sendApi2Req_run env url2 req2 w1)
    as (r2 & pre2 & sent2 & c2 & Hrun2 & Hsel2 & Hb2).
  destruct (sendApi2Req_body_run env url2 req2 w1) as (r2' & pre2' & Hb2' & Hf2 & _).
  rewrite Hb2 in Hb2'. injection Hb2' as _ Hw2.
  change (ReqSent w1) with (mkChan (T := bool) 1 [true] 0) in Hsel2.
  injection Hsel2 as <- <-.
  exists r2. eexists. split; [|split].
  - unfold bind. rewrite Hrun1. exact Hrun2.
  - reflexivity.
  - exists (pre1 ++ [EvReqSent true] ++ pre2 ++ [EvReqSent false]). split.
    + simpl. rewrite <- !app_assoc. reflexivity.
    + apply app_inv_head in Hw1. apply app_inv_head in Hw2.
      subst pre1' pre2'.
      rewrite !filter_app, Hf1, Hf2. reflexivity.
Qed.

Lemma sendApi2Req_twice_one_pending_witness :
  exists r w',
    bind (sendApi2Req Examples.env0 "a" (mkApi2Req 2
             (mkApi2ReqMsh "id" "v" 1 true (mkApi2ReqSgm 1 2 0%float 0%float 3 false))
             (mkApi2ReqMachine "linux" "amd64" "17" "" "" 8 16 1)
             (mkApi2ReqServer 0 "1.19.2" 760)))
         (fun _ => sendApi2Req Examples.env0 "b" (mkApi2Req 2
             (mkApi2ReqMsh "id" "v" 1 true (mkApi2ReqSgm 1 2 0%float 0%float 3 true))
             (mkApi2ReqMachine "linux" "amd64" "17" "" "" 8 16 1)
             (mkApi2ReqServer 0 "1.19.2" 760)))
         Examples.world0
    = (Returned r, w')
    /\ ReqSent w' = mkChan 1 [true] 0
    /\ exists post,
         trace w' = trace Examples.world0 ++ post
         /\ filter isReqSent post = [EvReqSent true; EvReqSent false].
Proof.
  apply (sendApi2Req_twice_one_pending Examples.env0 "a" "b" _ _ Examples.world0).
  reflexivity.
Defined.

(* ================================================================== *)
(** ** Further properties of the response reader *)

(** X12. [readApi2Res] reads the body once and closes it once, after the
    read, whatever the outcome; the raw bytes are logged exactly when the
    read succeeded (a decode failure is found after they were logged). *)
Theorem readApi2Res_trace :
  forall (Api2Res : Type)
         (json_Unmarshal : string -> option Api2Res * option string)
         (res : Response) (w : World),
    trace (snd (readApi2Res json_Unmarshal res w))
    = trace w
      ++ [EvLogln LVL_D "readApi2Res: reading response..." [];
          EvReadAll (body_id (Body res))]
      ++ match body_data (Body res) with
         | Ok resByte =>
             [EvLogln LVL_E "%smshc --> msh%s:%v"
                      [COLOR_PURPLE; COLOR_RESET; ArgBytes resByte]]
         | Err _ => []
         end
      ++ [EvClose (body_id (Body res))].
Proof.
  intros Api2Res json_Unmarshal res w.
  unfold readApi2Res, defer, readApi2Res_body, ioutil_ReadAll, Body_Close.
  cbv beta iota delta [bind Logln emit read ret].
  destruct (body_data (Body res)) as [resByte|m1].
  - destruct (json_Unmarshal resByte) as [resJson [m2|]];
      simpl; rewrite <- !app_assoc; reflexivity.
  - simpl. rewrite <- !app_assoc. reflexivity.
Qed.

(* ================================================================== *)
(** ** The whitelist check *)

Section WhitelistFacts.

Variable SliceContain : string -> list string -> bool.

Lemma inWhitelistLoop_result :
  forall whitelist params st,
    fst (Config.inWhitelistLoop SliceContain whitelist params st)
    = if existsb (fun p => SliceContain p whitelist) params
      then None else Some Config.notWhitelisted.
Proof.
  intros whitelist params st; induction params as [|p rest IH]; simpl.
  - reflexivity.
  - destruct (SliceContain p whitelist); [reflexivity | exact IH].
Qed.

Lemma InWhitelist_result :
  forall c params st,
    fst (Config.InWhitelist SliceContain c params st)
    = if Nat.eqb (List.length (Config.Msh_Whitelist c)) 0
         || existsb (fun p => SliceContain p (Config.Msh_Whitelist c)) params
      then None else Some Config.notWhitelisted.
Proof.
  intros c params st. unfold Config.InWhitelist.
  destruct (Nat.eqb (List.length (Config.Msh_Whitelist c)) 0); [reflexivity|].
  apply inWhitelistLoop_result.
Qed.

End WhitelistFacts.

(** X13. [InWhitelist] lets the caller through exactly when the whitelist
    is empty (the check is off) or one of the given names or addresses is
    in it; otherwise it returns the ERROR_PLAYER_NOT_IN_WHITELIST error.
    With a non-empty whitelist and no parameter at all it refuses. *)
Theorem InWhitelist_decides :
  forall (SliceContain : string -> list string -> bool)
         (c : Config.Configuration) (params : list string) (st : Config.State),
    fst (Config.InWhitelist SliceContain c params st)
    = if Nat.eqb (List.length (Config.Msh_Whitelist c)) 0
         || existsb (fun p => SliceContain p (Config.Msh_Whitelist c)) params
      then None
      else Some (Config.NewErr Config.ERROR_PLAYER_NOT_IN_WHITELIST Config.LVL_1
                   "InWhitelist" "playerName or clientAddress is not whitelisted").
Proof. exact InWhitelist_result. Qed.

(** X14. Giving more names or addresses never turns an accepted check
    into a refused one: if [InWhitelist] accepts some parameters, it
    accepts them with any others put before or after. *)
Theorem InWhitelist_monotone :
  forall (SliceContain : string -> list string -> bool)
         (c : Config.Configuration) (params before after : list string)
         (st st' : Config.State),
    fst (Config.InWhitelist SliceContain c params st) = None ->
    fst (Config.InWhitelist SliceContain c (before ++ params ++ after) st') = None.
Proof.
  intros SC c params before after st st' H.
  rewrite InWhitelist_result in H |- *.
  destruct (Nat.eqb (List.length (Config.Msh_Whitelist c)) 0); [reflexivity|].
  simpl in H |- *. rewrite !existsb_app.
  destruct (existsb _ params); [|discriminate H].
  now rewrite orb_true_r.
Qed.

Lemma InWhitelist_monotone_witness :
  fst (Config.InWhitelist (fun s l => existsb (String.eqb s) l)
         (Config.mkConfiguration "" ["steve"; "10.0.0.7"] 25555 "srv" "server.jar")
         (["alex"] ++ ["10.0.0.7"] ++ [])
         (Config.mkState "" 0 0 false []))
  = None.
Proof.
  apply (InWhitelist_monotone (fun s l => existsb (String.eqb s) l)
           (Config.mkConfiguration "" ["steve"; "10.0.0.7"] 25555 "srv" "server.jar")
           ["10.0.0.7"] ["alex"] []
           (Config.mkState "" 0 0 false []) (Config.mkState "" 0 0 false [])).
  reflexivity.
Defined.

Example InWhitelist_no_params_refused :
  fst (Config.InWhitelist (fun s l => existsb (String.eqb s) l)
         (Config.mkConfiguration "" ["steve"] 25555 "srv" "server.jar")
         [] (Config.mkState "" 0 0 false []))
  = Some Config.notWhitelisted.
Proof. reflexivity. Qed.

(* ================================================================== *)
(** ** The msh id *)

Lemma hex_EncodeToString_length :
  forall src,
    String.length (Config.hex_EncodeToString src) = (2 * String.length src)%nat.
Proof.
  induction src as [|a rest IH]; simpl; [reflexivity|].
  rewrite IH. lia.
Qed.

Lemma assignMshID_length :
  forall randomKey sha1_Sum c st,
    String.length (sha1_Sum randomKey) = 20%nat ->
    String.length (Config.Msh_ID (fst (Config.assignMshID randomKey sha1_Sum c st)))
    = 40%nat.
Proof.
  intros randomKey sha1_Sum c st H. unfold Config.assignMshID.
  destruct (Nat.eqb_spec (String.length (Config.Msh_ID c)) 40) as [E|_]; simpl.
  - exact E.
  - rewrite hex_EncodeToString_length, H. reflexivity.
Qed.

(** X15. After [assignMshID] the msh id of the config has 40 characters,
    whatever it was before (a sha1 digest has 20 bytes, and each byte is
    written as two hexadecimal digits). *)
Theorem assignMshID_gives_40_chars :
  forall (randomKey : string) (sha1_Sum : string -> string)
         (c : Config.Configuration) (st : Config.State),
    String.length (sha1_Sum randomKey) = 20%nat ->
    String.length (Config.Msh_ID (fst (Config.assignMshID randomKey sha1_Sum c st)))
    = 40%nat.
Proof. exact assignMshID_length. Qed.

Lemma assignMshID_gives_40_chars_witness :
  String.length
    (Config.Msh_ID
       (fst (Config.assignMshID "key" (fun _ => "01234567890123456789")
               (Config.mkConfiguration "too-short" [] 25555 "srv" "server.jar")
               (Config.mkState "" 0 0 false []))))
  = 40%nat.
Proof.
  apply (assignMshID_gives_40_chars "key" (fun _ => "01234567890123456789")
           (Config.mkConfiguration "too-short" [] 25555 "srv" "server.jar")
           (Config.mkState "" 0 0 false [])).
  reflexivity.
Defined.

(** X16. [assignMshID] settles: once it has run, running it again, even
    with other random bytes, keeps the config as it is and does not ask
    again for the config to be saved. An id of 40 characters is never
    replaced, whatever its characters. *)
Theorem assignMshID_settles :
  forall (key1 key2 : string) (sha1_Sum : string -> string)
         (c : Config.Configuration) (st : Config.State),
    String.length (sha1_Sum key1) = 20%nat ->
    fst (Config.assignMshID key2 sha1_Sum
           (fst (Config.assignMshID key1 sha1_Sum c st))
           (snd (Config.assignMshID key1 sha1_Sum c st)))
    = fst (Config.assignMshID key1 sha1_Sum c st)
    /\ Config.configDefaultSave
         (snd (Config.assignMshID key2 sha1_Sum
                 (fst (Config.assignMshID key1 sha1_Sum c st))
                 (snd (Config.assignMshID key1 sha1_Sum c st))))
       = Config.configDefaultSave (snd (Config.assignMshID key1 sha1_Sum c st)).
Proof.
  intros key1 key2 sha1_Sum c st H.
  pose proof (assignMshID_length key1 sha1_Sum c st H) as L.
  set (c1 := fst (Config.assignMshID key1 sha1_Sum c st)) in *.
  set (st1 := snd (Config.assignMshID key1 sha1_Sum c st)).
  assert (E : forall st2,
             Config.assignMshID key2 sha1_Sum c1 st2
             = (c1, Config.emit
                      (Config.EvLogMshErr
                         (Config.NewErr Config.ERROR_CONFIG_CHECK Config.LVL_3
                            "assignMshID" "mshid in config is valid, keeping it"))
                      st2)).
  { intros st2. unfold Config.assignMshID. now rewrite L. }
  rewrite E. split; reflexivity.
Qed.

Lemma assignMshID_settles_witness :
  fst (Config.assignMshID "other" (fun _ => "01234567890123456789")
         (fst (Config.assignMshID "key" (fun _ => "01234567890123456789")
                 (Config.mkConfiguration "" [] 25555 "srv" "server.jar")
                 (Config.mkState "" 0 0 false [])))
         (snd (Config.assignMshID "key" (fun _ => "01234567890123456789")
                 (Config.mkConfiguration "" [] 25555 "srv" "server.jar")
                 (Config.mkState "" 0 0 false []))))
  = fst (Config.assignMshID "key" (fun _ => "01234567890123456789")
           (Config.mkConfiguration "" [] 25555 "srv" "server.jar")
           (Config.mkState "" 0 0 false []))
  /\ Config.configDefaultSave
       (snd (Config.assignMshID "other" (fun _ => "01234567890123456789")
               (fst (Config.assignMshID "key" (fun _ => "01234567890123456789")
                       (Config.mkConfiguration "" [] 25555 "srv" "server.jar")
                       (Config.mkState "" 0 0 false [])))
               (snd (Config.assignMshID "key" (fun _ => "01234567890123456789")
                       (Config.mkConfiguration "" [] 25555 "srv" "server.jar")
                       (Config.mkState "" 0 0 false [])))))
     = Config.configDefaultSave
         (snd (Config.assignMshID "key" (fun _ => "01234567890123456789")
                 (Config.mkConfiguration "" [] 25555 "srv" "server.jar")
                 (Config.mkState "" 0 0 false []))).
Proof.
  apply (assignMshID_settles "key" "other" (fun _ => "01234567890123456789")
           (Config.mkConfiguration "" [] 25555 "srv" "server.jar")
           (Config.mkState "" 0 0 false [])).
  reflexivity.
Defined.

Example assignMshID_example :
  Config.Msh_ID
    (fst (Config.assignMshID "key" (fun _ => "01234567890123456789")
            (Config.mkConfiguration "" [] 25555 "srv" "server.jar")
            (Config.mkState "" 0 0 false [])))
  = "3031323334353637383930313233343536373839".
Proof. reflexivity. Qed.

(* ================================================================== *)
(** ** The ports *)

Lemma removeCR_idempotent :
  forall s, Config.removeCR (Config.removeCR s) = Config.removeCR s.
Proof.
  induction s as [|a rest IH]; simpl; [reflexivity|].
  destruct (Ascii.eqb a "013") eqn:E; simpl; [exact IH|].
  now rewrite E, IH.
Qed.

Section IpPortsFacts.

Variable filepath_Join : string -> string -> string.
Variable StrBetween : string -> string -> string -> string * option Config.Error.
Variable AddTrace : Config.Error -> string -> Config.Error.
Variable strconv_Atoi : string -> Z * option string.

(** The run of [loadIpPorts] on the content of server.properties. *)
Lemma loadIpPorts_ListenPort :
  forall readFile c st,
    Config.ListenPort
      (snd (Config.loadIpPorts filepath_Join readFile StrBetween AddTrace
              strconv_Atoi c st))
    = Config.Msh_ListenPort c.
Proof.
  intros readFile c st. unfold Config.loadIpPorts.
  destruct (readFile _) as [data|msg]; [|reflexivity].
  destruct (StrBetween _ _ _) as [s [e|]]; [reflexivity|].
  destruct (strconv_Atoi s) as [port [msg|]]; [reflexivity|].
  simpl. destruct (port =? Config.Msh_ListenPort c); reflexivity.
Qed.

Lemma loadIpPorts_success :
  forall readFile c st,
    fst (Config.loadIpPorts filepath_Join readFile StrBetween AddTrace
           strconv_Atoi c st) = None ->
    exists data,
      readFile (filepath_Join (Config.Server_Folder c) "server.properties")
      = Ok data
      /\ snd (StrBetween (Config.removeCR data) "server-port="
                (String "010"%char ""))
         = None
      /\ strconv_Atoi
           (fst (StrBetween (Config.removeCR data) "server-port="
                   (String "010"%char "")))
         = (Config.TargetPort
              (snd (Config.loadIpPorts filepath_Join readFile StrBetween AddTrace
                      strconv_Atoi c st)), None)
      /\ Config.TargetPort
           (snd (Config.loadIpPorts filepath_Join readFile StrBetween AddTrace
                   strconv_Atoi c st))
         <> Config.Msh_ListenPort c.
Proof.
  intros readFile c st. unfold Config.loadIpPorts.
  destruct (readFile _) as [data|msg] eqn:ER; [|discriminate].
  destruct (StrBetween _ _ _) as [s [e|]] eqn:ES; [discriminate|].
  destruct (strconv_Atoi s) as [port [msg|]] eqn:EA; [discriminate|].
  simpl. destruct (Z.eqb_spec port (Config.Msh_ListenPort c)); [discriminate|].
  intros _. exists data. simpl. rewrite ES. simpl. repeat split; assumption.
Qed.

Lemma loadIpPorts_TargetPort :
  forall readFile c st,
    Config.TargetPort
      (snd (Config.loadIpPorts filepath_Join readFile StrBetween AddTrace
              strconv_Atoi c st))
    = match readFile (filepath_Join (Config.Server_Folder c) "server.properties") with
      | Err _ => Config.TargetPort st
      | Ok data =>
          match StrBetween (Config.removeCR data) "server-port="
                  (String "010"%char "") with
          | (_, Some _) => Config.TargetPort st
          | (text, None) => fst (strconv_Atoi text)
          end
      end.
Proof.
  intros readFile c st. unfold Config.loadIpPorts.
  destruct (readFile _) as [data|msg]; [|reflexivity].
  destruct (StrBetween _ _ _) as [s [e|]]; [reflexivity|].
  destruct (strconv_Atoi s) as [port [msg|]]; [reflexivity|].
  simpl. destruct (port =? Config.Msh_ListenPort c); reflexivity.
Qed.

End IpPortsFacts.

(** X17. When [loadIpPorts] returns no error, the target port is the
    number parsed from the server-port entry of server.properties, and it
    differs from the listen port; the listen port is the one of the
    config. *)
Theorem loadIpPorts_ports_differ :
  forall (filepath_Join : string -> string -> string)
         (ioutil_ReadFile : string -> result string)
         (StrBetween : string -> string -> string -> string * option Config.Error)
         (AddTrace : Config.Error -> string -> Config.Error)
         (strconv_Atoi : string -> Z * option string)
         (c : Config.Configuration) (st : Config.State),
    fst (Config.loadIpPorts filepath_Join ioutil_ReadFile StrBetween AddTrace
           strconv_Atoi c st) = None ->
    Config.ListenPort
      (snd (Config.loadIpPorts filepath_Join ioutil_ReadFile StrBetween AddTrace
              strconv_Atoi c st))
    = Config.Msh_ListenPort c
    /\ Config.TargetPort
         (snd (Config.loadIpPorts filepath_Join ioutil_ReadFile StrBetween
                 AddTrace strconv_Atoi c st))
       <> Config.ListenPort
            (snd (Config.loadIpPorts filepath_Join ioutil_ReadFile StrBetween
                    AddTrace strconv_Atoi c st))
    /\ exists data,
         ioutil_ReadFile (filepath_Join (Config.Server_Folder c) "server.properties")
         = Ok data
         /\ fst (strconv_Atoi
                   (fst (StrBetween (Config.removeCR data) "server-port="
                           (String "010"%char ""))))
            = Config.TargetPort
                (snd (Config.loadIpPorts filepath_Join ioutil_ReadFile StrBetween
                        AddTrace strconv_Atoi c st)).
Proof.
  intros J R SB AT A c st H.
  pose proof (loadIpPorts_ListenPort J SB AT A R c st) as HL.
  destruct (loadIpPorts_success J SB AT A R c st H) as (data & HR & _ & HA & Hne).
  rewrite HL. repeat split; try assumption.
  exists data. split; [exact HR|]. now rewrite HA.
Qed.

(** X18. What [loadIpPorts] leaves in the two globals on every path,
    error or not: [ListenPort] is the listen port of the config;
    [TargetPort] keeps its value when server.properties cannot be read or
    has no server-port entry, and otherwise holds what [strconv.Atoi]
    returned for the entry, also when the conversion failed or the two
    ports turned out equal. *)
Theorem loadIpPorts_globals :
  forall (filepath_Join : string -> string -> string)
         (ioutil_ReadFile : string -> result string)
         (StrBetween : string -> string -> string -> string * option Config.Error)
         (AddTrace : Config.Error -> string -> Config.Error)
         (strconv_Atoi : string -> Z * option string)
         (c : Config.Configuration) (st : Config.State),
    Config.ListenPort
      (snd (Config.loadIpPorts filepath_Join ioutil_ReadFile StrBetween AddTrace
              strconv_Atoi c st))
    = Config.Msh_ListenPort c
    /\ Config.TargetPort
         (snd (Config.loadIpPorts filepath_Join ioutil_ReadFile StrBetween
                 AddTrace strconv_Atoi c st))
       = match ioutil_ReadFile
                 (filepath_Join (Config.Server_Folder c) "server.properties") with
         | Err _ => Config.TargetPort st
         | Ok data =>
             match StrBetween (Config.removeCR data) "server-port="
                     (String "010"%char "") with
             | (_, Some _) => Config.TargetPort st
             | (text, None) => fst (strconv_Atoi text)
             end
         end.
Proof.
  intros J R SB AT A c st. split.
  - apply loadIpPorts_ListenPort.
  - apply loadIpPorts_TargetPort.
Qed.

(** X19. Carriage returns do not matter: a server.properties with
    windows line ends gives the same result and the same ports as the file
    with every carriage return removed. *)
Theorem loadIpPorts_ignores_CR :
  forall (filepath_Join : string -> string -> string)
         (StrBetween : string -> string -> string -> string * option Config.Error)
         (AddTrace : Config.Error -> string -> Config.Error)
         (strconv_Atoi : string -> Z * option string)
         (c : Config.Configuration) (st : Config.State) (data : string),
    Config.loadIpPorts filepath_Join (fun _ => Ok data) StrBetween AddTrace
      strconv_Atoi c st
    = Config.loadIpPorts filepath_Join (fun _ => Ok (Config.removeCR data))
        StrBetween AddTrace strconv_Atoi c st.
Proof.
  intros J SB AT A c st data. unfold Config.loadIpPorts.
  now rewrite removeCR_idempotent.
Qed.

Lemma loadIpPorts_ports_differ_witness :
  Config.ListenPort
    (snd (Config.loadIpPorts (fun d f => (d ++ "/" ++ f)%string)
            (fun _ => Ok "server-port=25565")
            (fun _ _ _ => ("25565", None)) (fun e _ => e)
            (fun _ => (25565, None))
            (Config.mkConfiguration "" [] 25555 "srv" "server.jar")
            (Config.mkState "" 0 0 false [])))
  = 25555
  /\ Config.TargetPort
       (snd (Config.loadIpPorts (fun d f => (d ++ "/" ++ f)%string)
               (fun _ => Ok "server-port=25565")
               (fun _ _ _ => ("25565", None)) (fun e _ => e)
               (fun _ => (25565, None))
               (Config.mkConfiguration "" [] 25555 "srv" "server.jar")
               (Config.mkState "" 0 0 false [])))
     <> Config.ListenPort
          (snd (Config.loadIpPorts (fun d f => (d ++ "/" ++ f)%string)
                  (fun _ => Ok "server-port=25565")
                  (fun _ _ _ => ("25565", None)) (fun e _ => e)
                  (fun _ => (25565, None))
                  (Config.mkConfiguration "" [] 25555 "srv" "server.jar")
                  (Config.mkState "" 0 0 false [])))
  /\ exists data,
       Ok "server-port=25565" = Ok data
       /\ 25565
          = Config.TargetPort
              (snd (Config.loadIpPorts (fun d f => (d ++ "/" ++ f)%string)
                      (fun _ => Ok "server-port=25565")
                      (fun _ _ _ => ("25565", None)) (fun e _ => e)
                      (fun _ => (25565, None))
                      (Config.mkConfiguration "" [] 25555 "srv" "server.jar")
                      (Config.mkState "" 0 0 false []))).
Proof.
  apply (loadIpPorts_ports_differ (fun d f => (d ++ "/" ++ f)%string)
           (fun _ => Ok "server-port=25565")
           (fun _ _ _ => ("25565", None)) (fun e _ => e)
           (fun _ => (25565, None))
           (Config.mkConfiguration "" [] 25555 "srv" "server.jar")
           (Config.mkState "" 0 0 false [])).
  reflexivity.
Defined.

(* ================================================================== *)
(** ** The version of the server *)

Lemma emits_nil : forall st, Config.emits [] st = st.
Proof. intros []. unfold Config.emits; simpl. now rewrite app_nil_r. Qed.

Lemma emits_emits :
  forall es1 es2 st,
    Config.emits es2 (Config.emits es1 st) = Config.emits (es1 ++ es2) st.
Proof. intros. unfold Config.emits; simpl. now rewrite <- app_assoc. Qed.

Lemma emit_as_emits : forall e st, Config.emit e st = Config.emits [e] st.
Proof. reflexivity. Qed.

Section VersionFacts.

Variable json_Unmarshal : string -> Config.VersionInfo * option string.

(** Entries with another name are passed over. *)
Lemma versionLoop_skip :
  forall before rest st,
    Forall (fun f => Config.Name f <> "version.json") before ->
    Config.versionLoop json_Unmarshal (before ++ rest) st
    = Config.versionLoop json_Unmarshal rest st.
Proof.
  intros before rest st H; induction H as [|f before Hf _ IH]; simpl.
  - reflexivity.
  - destruct (String.eqb_spec (Config.Name f) "version.json") as [E|_];
      [now contradiction Hf | exact IH].
Qed.

(** The entry named version.json ends the loop. *)
Lemma versionLoop_hit :
  forall f after st,
    Config.Name f = "version.json" ->
    Config.versionLoop json_Unmarshal (f :: after) st
    = Config.versionLoop json_Unmarshal [f] st.
Proof.
  intros f after st E. simpl. rewrite E. simpl.
  destruct (Config.Open f) as [[versionsBytes|m]|m]; reflexivity.
Qed.

(** The loop returns the empty version and 0 with every error, opens at
    most one entry, and defers the close of the entry it opened. *)
Lemma versionLoop_run :
  forall files st,
    exists r opened,
      Config.versionLoop json_Unmarshal files st
      = (r, Config.emits (map Config.EvOpen opened) st, opened)
      /\ (List.length opened <= 1)%nat
      /\ (snd r = None \/ exists msg, r = ("", 0, Some (Config.versionErr msg))).
Proof.
  intros files st; induction files as [|f rest IH]; simpl.
  - exists ("", 0, Some (Config.versionErr
       "minecraft server version and protocol could not be extracted from version.json")), [].
    rewrite emits_nil. repeat split; [simpl; lia | right; eauto].
  - destruct (String.eqb (Config.Name f) "version.json"); simpl; [|exact IH].
    destruct (Config.Open f) as [[versionsBytes|m]|m].
    + destruct (json_Unmarshal versionsBytes) as [info [m|]];
        eexists; exists [Config.Name f];
        (split; [rewrite emit_as_emits; reflexivity|]);
        (split; [simpl; lia|]).
      * right; eauto.
      * now left.
    + eexists; exists [Config.Name f].
      split; [rewrite emit_as_emits; reflexivity|].
      split; [simpl; lia | right; eauto].
    + exists ("", 0, Some (Config.versionErr m)), [].
      rewrite emits_nil. repeat split; [simpl; lia | right; eauto].
Qed.

End VersionFacts.

(** X20. Only the first entry named version.json counts: the entries
    before it are passed over without being opened, and whatever comes
    after it in the archive (a second version.json too) changes nothing. *)
Theorem getVersionInfo_first_entry_decides :
  forall (filepath_Join : string -> string -> string)
         (json_Unmarshal : string -> Config.VersionInfo * option string)
         (c : Config.Configuration) (st : Config.State)
         (before after : list Config.ZipFile) (f : Config.ZipFile),
    Forall (fun g => Config.Name g <> "version.json") before ->
    Config.Name f = "version.json" ->
    Config.getVersionInfo filepath_Join (fun _ => Ok (before ++ f :: after))
      json_Unmarshal c st
    = Config.getVersionInfo filepath_Join (fun _ => Ok [f]) json_Unmarshal c st.
Proof.
  intros J U c st before after f Hb Hf. unfold Config.getVersionInfo.
  rewrite versionLoop_skip by exact Hb.
  now rewrite versionLoop_hit by exact Hf.
Qed.

(** X21. The contract in the comment of [getVersionInfo]: whenever it
    returns an error, the version is the empty string and the protocol is
    0, and the error has code ERROR_VERSION_LOAD, level LVL_3 and origin
    "getVersionInfo". *)
Theorem getVersionInfo_error_contract :
  forall (filepath_Join : string -> string -> string)
         (zip_OpenReader : string -> result (list Config.ZipFile))
         (json_Unmarshal : string -> Config.VersionInfo * option string)
         (c : Config.Configuration) (st : Config.State),
    snd (fst (Config.getVersionInfo filepath_Join zip_OpenReader json_Unmarshal
                c st)) = None
    \/ exists msg,
         fst (Config.getVersionInfo filepath_Join zip_OpenReader json_Unmarshal
                c st)
         = ("", 0,
            Some (Config.NewErr Config.ERROR_VERSION_LOAD Config.LVL_3
                    "getVersionInfo" msg)).
Proof.
  intros J Z U c st. unfold Config.getVersionInfo.
  destruct (Z _) as [files|m]; [|right; eexists; reflexivity].
  destruct (versionLoop_run U files
              (Config.emit
                 (Config.EvOpen
                    (J (Config.Server_Folder c) (Config.Server_FileName c))) st))
    as (r & opened & -> & _ & Hr).
  exact Hr.
Qed.

(** X22. An archive without an entry named version.json (an empty one
    too) gives the error "minecraft server version and protocol could not
    be extracted from version.json"; no entry is opened, and the archive is
    opened and closed. *)
Theorem getVersionInfo_no_version_json :
  forall (filepath_Join : string -> string -> string)
         (zip_OpenReader : string -> result (list Config.ZipFile))
         (json_Unmarshal : string -> Config.VersionInfo * option string)
         (c : Config.Configuration) (st : Config.State)
         (files : list Config.ZipFile),
    zip_OpenReader (filepath_Join (Config.Server_Folder c) (Config.Server_FileName c))
    = Ok files ->
    Forall (fun g => Config.Name g <> "version.json") files ->
    Config.getVersionInfo filepath_Join zip_OpenReader json_Unmarshal c st
    = (("", 0,
        Some (Config.NewErr Config.ERROR_VERSION_LOAD Config.LVL_3 "getVersionInfo"
                "minecraft server version and protocol could not be extracted from version.json")),
       Config.emits
         [Config.EvOpen
            (filepath_Join (Config.Server_Folder c) (Config.Server_FileName c));
          Config.EvClose
            (filepath_Join (Config.Server_Folder c) (Config.Server_FileName c))]
         st).
Proof.
  intros J Z U c st files HZ Hf. unfold Config.getVersionInfo. rewrite HZ.
  rewrite <- (app_nil_r files), versionLoop_skip by exact Hf.
  simpl. now rewrite emit_as_emits, emits_emits.
Qed.

(** X23. Nothing stays open: when the archive cannot be opened the trace
    is unchanged; otherwise the archive is opened first and closed last,
    and the entry that was opened in between (at most one) is closed
    before the archive is. *)
Theorem getVersionInfo_closes_what_it_opens :
  forall (filepath_Join : string -> string -> string)
         (zip_OpenReader : string -> result (list Config.ZipFile))
         (json_Unmarshal : string -> Config.VersionInfo * option string)
         (c : Config.Configuration) (st : Config.State),
    match zip_OpenReader
            (filepath_Join (Config.Server_Folder c) (Config.Server_FileName c)) with
    | Err _ =>
        snd (Config.getVersionInfo filepath_Join zip_OpenReader json_Unmarshal c st)
        = st
    | Ok _ =>
        exists opened,
          (List.length opened <= 1)%nat
          /\ snd (Config.getVersionInfo filepath_Join zip_OpenReader
                    json_Unmarshal c st)
             = Config.emits
                 ([Config.EvOpen
                     (filepath_Join (Config.Server_Folder c)
                        (Config.Server_FileName c))]
                  ++ map Config.EvOpen opened
                  ++ map Config.EvClose opened
                  ++ [Config.EvClose
                        (filepath_Join (Config.Server_Folder c)
                           (Config.Server_FileName c))])
                 st
    end.
Proof.
  intros J Z U c st. unfold Config.getVersionInfo.
  destruct (Z _) as [files|m]; [|reflexivity].
  destruct (versionLoop_run U files
              (Config.emit
                 (Config.EvOpen
                    (J (Config.Server_Folder c) (Config.Server_FileName c))) st))
    as (r & opened & -> & Hlen & _).
  exists opened. split; [exact Hlen|].
  simpl. rewrite emit_as_emits, !emits_emits, map_app. reflexivity.
Qed.

Lemma getVersionInfo_first_entry_decides_witness :
  Config.getVersionInfo (fun d f => (d ++ "/" ++ f)%string)
    (fun _ => Ok ([Config.mkZipFile "META-INF/MANIFEST.MF" (Err "unreadable")]
                  ++ Config.mkZipFile "version.json" (Ok (Ok "{}"))
                  :: [Config.mkZipFile "version.json" (Err "second")]))
    (fun _ => (Config.mkVersionInfo "1.19.2" 760, None))
    (Config.mkConfiguration "" [] 25555 "srv" "server.jar")
    (Config.mkState "" 0 0 false [])
  = Config.getVersionInfo (fun d f => (d ++ "/" ++ f)%string)
      (fun _ => Ok [Config.mkZipFile "version.json" (Ok (Ok "{}"))])
      (fun _ => (Config.mkVersionInfo "1.19.2" 760, None))
      (Config.mkConfiguration "" [] 25555 "srv" "server.jar")
      (Config.mkState "" 0 0 false []).
Proof.
  apply (getVersionInfo_first_entry_decides (fun d f => (d ++ "/" ++ f)%string)
           (fun _ => (Config.mkVersionInfo "1.19.2" 760, None))
           (Config.mkConfiguration "" [] 25555 "srv" "server.jar")
           (Config.mkState "" 0 0 false [])
           [Config.mkZipFile "META-INF/MANIFEST.MF" (Err "unreadable")]
           [Config.mkZipFile "version.json" (Err "second")]
           (Config.mkZipFile "version.json" (Ok (Ok "{}")))).
  - constructor; [discriminate | constructor].
  - reflexivity.
Defined.

Lemma getVersionInfo_no_version_json_witness :
  Config.getVersionInfo (fun d f => (d ++ "/" ++ f)%string)
    (fun _ => Ok [Config.mkZipFile "META-INF/MANIFEST.MF" (Ok (Ok "x"))])
    (fun _ => (Config.mkVersionInfo "1.19.2" 760, None))
    (Config.mkConfiguration "" [] 25555 "srv" "server.jar")
    (Config.mkState "" 0 0 false [])
  = (("", 0,
      Some (Config.NewErr Config.ERROR_VERSION_LOAD Config.LVL_3 "getVersionInfo"
              "minecraft server version and protocol could not be extracted from version.json")),
     Config.emits [Config.EvOpen "srv/server.jar"; Config.EvClose "srv/server.jar"]
       (Config.mkState "" 0 0 false [])).
Proof.
  apply (getVersionInfo_no_version_json (fun d f => (d ++ "/" ++ f)%string)
           (fun _ => Ok [Config.mkZipFile "META-INF/MANIFEST.MF" (Ok (Ok "x"))])
           (fun _ => (Config.mkVersionInfo "1.19.2" 760, None))
           (Config.mkConfiguration "" [] 25555 "srv" "server.jar")
           (Config.mkState "" 0 0 false [])
           [Config.mkZipFile "META-INF/MANIFEST.MF" (Ok (Ok "x"))]).
  - reflexivity.
  - constructor; [discriminate | constructor].
Defined.

(** X24. When the archive opens and its first version.json entry can be
    opened, read and decoded, [getVersionInfo] returns the version and the
    protocol decoded from the bytes of that entry, with no error. *)
Theorem getVersionInfo_returns_decoded :
  forall (filepath_Join : string -> string -> string)
         (zip_OpenReader : string -> result (list Config.ZipFile))
         (json_Unmarshal : string -> Config.VersionInfo * option string)
         (c : Config.Configuration) (st : Config.State)
         (before after : list Config.ZipFile) (f : Config.ZipFile)
         (versionsBytes : string) (info : Config.VersionInfo),
    zip_OpenReader (filepath_Join (Config.Server_Folder c) (Config.Server_FileName c))
    = Ok (before ++ f :: after) ->
    Forall (fun g => Config.Name g <> "version.json") before ->
    Config.Name f = "version.json" ->
    Config.Open f = Ok (Ok versionsBytes) ->
    json_Unmarshal versionsBytes = (info, None) ->
    fst (Config.getVersionInfo filepath_Join zip_OpenReader json_Unmarshal c st)
    = (Config.Version info, Config.Protocol info, None).
Proof.
  intros J Z U c st before after f versionsBytes info HZ Hb Hf HO HU.
  unfold Config.getVersionInfo. rewrite HZ.
  rewrite versionLoop_skip by exact Hb.
  rewrite versionLoop_hit by exact Hf.
  simpl. rewrite Hf, HO, HU. reflexivity.
Qed.

Lemma getVersionInfo_returns_decoded_witness :
  fst (Config.getVersionInfo (fun d f => (d ++ "/" ++ f)%string)
         (fun _ => Ok ([Config.mkZipFile "META-INF/MANIFEST.MF" (Err "unreadable")]
                       ++ Config.mkZipFile "version.json" (Ok (Ok "{}")) :: []))
         (fun _ => (Config.mkVersionInfo "1.19.2" 760, None))
         (Config.mkConfiguration "" [] 25555 "srv" "server.jar")
         (Config.mkState "" 0 0 false []))
  = ("1.19.2", 760, None).
Proof.
  apply (getVersionInfo_returns_decoded (fun d f => (d ++ "/" ++ f)%string)
           (fun _ => Ok ([Config.mkZipFile "META-INF/MANIFEST.MF" (Err "unreadable")]
                         ++ Config.mkZipFile "version.json" (Ok (Ok "{}")) :: []))
           (fun _ => (Config.mkVersionInfo "1.19.2" 760, None))
           (Config.mkConfiguration "" [] 25555 "srv" "server.jar")
           (Config.mkState "" 0 0 false [])
           [Config.mkZipFile "META-INF/MANIFEST.MF" (Err "unreadable")] []
           (Config.mkZipFile "version.json" (Ok (Ok "{}"))) "{}"
           (Config.mkVersionInfo "1.19.2" 760)).
  - reflexivity.
  - constructor; [discriminate | constructor].
  - reflexivity.
  - reflexivity.
  - reflexivity.
Defined.

(* ================================================================== *)
(** ** The server icon *)

Section IconFacts.

Variable Image : Type.
Variable defaultServerIcon : string.
Variable filepath_Join : string -> string -> string.
Variable stat_IsNotExist : string -> bool.
Variable os_Open : string -> option string.
Variable ioutil_ReadAll : string -> result string.
Variable png_Decode : string -> result Image.
Variable jpeg_Decode : string -> result Image.
Variable ScaleImg : Image -> Image * Z.
Variable png_Encode : Image -> result string.
Variable base64_RawStdEncoding : string -> string.

(** The state the loop is left in: the events it added, the icon of the
    first candidate that went through (if any) and the files it opened,
    whose closes are deferred, latest first. *)
Lemma loadIconLoop_run :
  forall paths deferred st,
    exists evs opened,
      Config.loadIconLoop Image stat_IsNotExist os_Open ioutil_ReadAll png_Decode
        jpeg_Decode ScaleImg png_Encode base64_RawStdEncoding paths deferred st
      = (match Config.firstIcon Image stat_IsNotExist os_Open ioutil_ReadAll
               png_Decode jpeg_Decode ScaleImg png_Encode base64_RawStdEncoding paths with
         | Some icon => Config.set_ServerIcon icon (Config.emits evs st)
         | None => Config.emits evs st
         end,
         rev opened ++ deferred)
      /\ filter Config.isFile evs = map Config.EvOpen opened
      /\ incl opened paths.
Proof.
  induction paths as [|uip rest IH]; intros deferred st.
  - exists [], []. simpl. rewrite emits_nil. repeat split. apply incl_refl.
  - simpl. unfold Config.iconOf.
    destruct (stat_IsNotExist uip).
    { destruct (IH deferred st) as (evs & opened & -> & Hf & Hi).
      exists evs, opened. repeat split; [exact Hf | now apply incl_tl]. }
    destruct (os_Open uip) as [m|].
    { destruct (IH deferred (Config.emit (Config.iconErr m) st))
        as (evs & opened & -> & Hf & Hi).
      exists (Config.iconErr m :: evs), opened.
      rewrite emit_as_emits, emits_emits. simpl.
      repeat split; [exact Hf | now apply incl_tl]. }
    assert (Hrec :
      forall e,
        filter Config.isFile e = [] ->
        exists evs opened,
          Config.loadIconLoop Image stat_IsNotExist os_Open ioutil_ReadAll
            png_Decode jpeg_Decode ScaleImg png_Encode base64_RawStdEncoding
            rest (uip :: deferred)
            (Config.emits (Config.EvOpen uip :: e) st)
          = (match
               Config.firstIcon Image stat_IsNotExist os_Open ioutil_ReadAll
                 png_Decode jpeg_Decode ScaleImg png_Encode
                 base64_RawStdEncoding rest
             with
             | Some icon => Config.set_ServerIcon icon (Config.emits evs st)
             | None => Config.emits evs st
             end, rev opened ++ deferred)
          /\ filter Config.isFile evs = map Config.EvOpen opened
          /\ incl opened (uip :: rest)).
    { intros e He.
      destruct (IH (uip :: deferred) (Config.emits (Config.EvOpen uip :: e) st))
        as (evs & opened & -> & Hf & Hi).
      exists ((Config.EvOpen uip :: e) ++ evs), (uip :: opened).
      rewrite emits_emits. split; [|split].
      - simpl rev. rewrite <- app_assoc. reflexivity.
      - simpl. rewrite filter_app, He, Hf. reflexivity.
      - intros x [<-|Hx]; [now left | right; now apply Hi]. }
    destruct (ioutil_ReadAll uip) as [fdata|m].
    2:{ rewrite !emit_as_emits, emits_emits. simpl app.
        apply Hrec. reflexivity. }
    destruct (match png_Decode fdata with
              | Ok img => Ok img
              | Err _ => jpeg_Decode fdata
              end) as [img|m].
    2:{ rewrite !emit_as_emits, emits_emits. simpl app.
        apply Hrec. reflexivity. }
    destruct (ScaleImg img) as [scaImg d]. simpl fst.
    destruct (png_Encode scaImg) as [buff|m].
    + exists [Config.EvOpen uip;
              Config.EvLogln Config.LVL_3 "scaled %s to 64x64. (%v ms)"
                [Config.ArgStr uip; Config.ArgInt d]], [uip].
      rewrite !emit_as_emits, emits_emits. simpl.
      repeat split. intros x [<-|[]]. now left.
    + rewrite !emit_as_emits, !emits_emits. simpl app.
      apply Hrec. reflexivity.
Qed.

End IconFacts.

(** X25. [loadIcon] never returns an error, and the icon it leaves is
    that of the png candidate when every step on it succeeds, else that of
    the jpg candidate when every step on it succeeds, else the default
    icon. A candidate is judged by its content: it is decoded as png and,
    failing that, as jpeg, whatever its extension. *)
Theorem loadIcon_first_good_candidate :
  forall (Image : Type) (defaultServerIcon : string)
         (filepath_Join : string -> string -> string)
         (stat_IsNotExist : string -> bool) (os_Open : string -> option string)
         (ioutil_ReadAll : string -> result string)
         (png_Decode jpeg_Decode : string -> result Image)
         (ScaleImg : Image -> Image * Z) (png_Encode : Image -> result string)
         (base64_RawStdEncoding : string -> string)
         (c : Config.Configuration) (st : Config.State),
    fst (Config.loadIcon Image defaultServerIcon filepath_Join stat_IsNotExist
           os_Open ioutil_ReadAll png_Decode jpeg_Decode ScaleImg png_Encode
           base64_RawStdEncoding c st) = None
    /\ Config.ServerIcon
         (snd (Config.loadIcon Image defaultServerIcon filepath_Join
                 stat_IsNotExist os_Open ioutil_ReadAll png_Decode jpeg_Decode
                 ScaleImg png_Encode base64_RawStdEncoding c st))
       = match Config.iconOf Image stat_IsNotExist os_Open ioutil_ReadAll
                 png_Decode jpeg_Decode ScaleImg png_Encode base64_RawStdEncoding
                 (filepath_Join (Config.Server_Folder c) "server-icon-frozen.png")
         with
         | Some icon => icon
         | None =>
             match Config.iconOf Image stat_IsNotExist os_Open ioutil_ReadAll
                     png_Decode jpeg_Decode ScaleImg png_Encode
                     base64_RawStdEncoding
                     (filepath_Join (Config.Server_Folder c)
                        "server-icon-frozen.jpg")
             with
             | Some icon => icon
             | None => defaultServerIcon
             end
         end.
Proof.
  intros Image dflt J St Op RA Png Jpg Sc Enc B64 c st.
  unfold Config.loadIcon.
  destruct (loadIconLoop_run Image St Op RA Png Jpg Sc Enc B64
              ([] ++ [J (Config.Server_Folder c) "server-icon-frozen.png"]
                  ++ [J (Config.Server_Folder c) "server-icon-frozen.jpg"])
              [] (Config.set_ServerIcon dflt st))
    as (evs & opened & -> & _ & _).
  simpl.
  destruct (Config.iconOf Image St Op RA Png Jpg Sc Enc B64
              (J (Config.Server_Folder c) "server-icon-frozen.png")).
  - split; reflexivity.
  - destruct (Config.iconOf Image St Op RA Png Jpg Sc Enc B64
                (J (Config.Server_Folder c) "server-icon-frozen.jpg"));
      split; reflexivity.
Qed.

(** X26. [loadIcon] closes every file it opened: the closes come last in
    the trace, one for each file opened, in the reverse order of the
    opens, and only the two candidate paths are ever opened. *)
Theorem loadIcon_closes_what_it_opens :
  forall (Image : Type) (defaultServerIcon : string)
         (filepath_Join : string -> string -> string)
         (stat_IsNotExist : string -> bool) (os_Open : string -> option string)
         (ioutil_ReadAll : string -> result string)
         (png_Decode jpeg_Decode : string -> result Image)
         (ScaleImg : Image -> Image * Z) (png_Encode : Image -> result string)
         (base64_RawStdEncoding : string -> string)
         (c : Config.Configuration) (st : Config.State),
    exists (evs : list Config.Event) (opened : list string),
      Config.trace
        (snd (Config.loadIcon Image defaultServerIcon filepath_Join
                stat_IsNotExist os_Open ioutil_ReadAll png_Decode jpeg_Decode
                ScaleImg png_Encode base64_RawStdEncoding c st))
      = Config.trace st ++ evs ++ map Config.EvClose (rev opened)
      /\ filter Config.isFile evs = map Config.EvOpen opened
      /\ incl opened
           [filepath_Join (Config.Server_Folder c) "server-icon-frozen.png";
            filepath_Join (Config.Server_Folder c) "server-icon-frozen.jpg"].
Proof.
  intros Image dflt J St Op RA Png Jpg Sc Enc B64 c st.
  unfold Config.loadIcon.
  destruct (loadIconLoop_run Image St Op RA Png Jpg Sc Enc B64
              ([] ++ [J (Config.Server_Folder c) "server-icon-frozen.png"]
                  ++ [J (Config.Server_Folder c) "server-icon-frozen.jpg"])
              [] (Config.set_ServerIcon dflt st))
    as (evs & opened & -> & Hf & Hi).
  exists evs, opened. split; [|split; [exact Hf | exact Hi]].
  rewrite app_nil_r.
  destruct (Config.firstIcon _ _ _ _ _ _ _ _ _ _); simpl;
    now rewrite <- app_assoc.
Qed.

Example loadIcon_png_unreadable_jpg_good :
  Config.loadIcon nat "default" (fun d f => (d ++ "/" ++ f)%string)
    (fun _ => false) (fun _ => None)
    (fun p => if String.eqb p "srv/server-icon-frozen.png"
              then Err "read error" else Ok "jpegdata")
    (fun _ => Err "png: invalid format") (fun _ => Ok 7%nat)
    (fun img => (img, 3)) (fun _ => Ok "pngbytes") (fun b => ("b64:" ++ b)%string)
    (Config.mkConfiguration "" [] 25555 "srv" "server.jar")
    (Config.mkState "" 0 0 false [])
  = (None,
     Config.mkState "b64:pngbytes" 0 0 false
       [Config.EvOpen "srv/server-icon-frozen.png";
        Config.EvLogMshErr
          (Config.NewErr Config.ERROR_ICON_LOAD Config.LVL_3 "loadIcon" "read error");
        Config.EvOpen "srv/server-icon-frozen.jpg";
        Config.EvLogln Config.LVL_3 "scaled %s to 64x64. (%v ms)"
          [Config.ArgStr "srv/server-icon-frozen.jpg"; Config.ArgInt 3];
        Config.EvClose "srv/server-icon-frozen.jpg";
        Config.EvClose "srv/server-icon-frozen.png"]).
Proof. reflexivity. Qed.
